(** * crashmapqld: the fatal-crash filter, the folium layers and the Flask views

    A shallow embedding of [main.py].  The program keeps one process-wide
    variable, [fatal], reads one file, [locations.csv], and answers requests
    by building a folium map from the rows held in [fatal].

    Conventions of the embedding:
    - a Python [float] that is a number is the rational it denotes ([Q]);
      the missing value [NaN] is a value of its own.  The program never
      computes with floats, it only carries them from a row to a layer;
    - a pandas [DataFrame] is the list of its column names and the list of
      its rows, in file order; a column is the list of one field of every
      row.  A cell of a numeric column is an integer, a float or [NaN]; a
      cell of a text column is a string or [NaN];
    - a folium element records the arguments the source passes to its
      constructor, and the children later added to it, in insertion order;
      a constructor that validates its arguments can raise;
    - a view runs in the monad [M]: it reads and writes the process state
      and either returns a value or raises. *)

From Stdlib Require Import QArith Ascii.
From stdpp Require Import base list strings pretty gmap.

Open Scope Z_scope.
Open Scope string_scope.

(** ** Exceptions *)

(** What a step of the program can raise: [fatal[...]] on [fatal = None] is
    a [TypeError]; a column that the frame does not have is a [KeyError];
    [read_csv] raises [FileNotFoundError] for a file that is not there,
    [EmptyDataError] for a file without columns and [ParserError] for one
    it cannot tokenize; folium raises [ValueError] for a location or a heat
    point that holds [NaN]. *)
Inductive exn :=
| TypeError
| FileNotFoundError
| ValueError
| KeyError (key : string)
| ParserError
| EmptyDataError.

Inductive Result (A : Type) :=
| Return (a : A)
| Raise (e : exn).
Arguments Return {A} a.
Arguments Raise {A} e.

(** ** pandas: values, rows and frames *)

Module pd.

(** A cell of a text column: text, an integer (when the column is parsed
    as numbers), or the missing-value marker. *)
Inductive Value :=
| VStr (s : string)
| VInt (n : Z)
| VNaN.

#[export] Instance Value_eq_dec : EqDecision Value.
Proof. solve_decision. Defined.

(** A cell of a numeric column. *)
Inductive Number :=
| int64 (n : Z)
| float64 (q : Q)
| NaN.

(** The only dtype the program names ([str]). *)
Inductive dtype := str.

(** A field of a numeric column as it stands in the file: an integer
    literal, a decimal literal, or nothing (an empty field or another
    missing-value marker). *)
Inductive NumCell :=
| cell_int (n : Z)
| cell_dec (q : Q)
| cell_blank.

(** A line of [locations.csv] as the tokenizer delivers it: the fields of
    the seven columns the program names.  The three numeric columns hold a
    number or nothing; the four text columns hold the raw text of the
    field.  (Text that is not a number in a numeric column, and a text
    column whose every field is a number, are outside the model.) *)
Record CsvRow := {
  csv_Crash_Latitude_GDA94 : NumCell;
  csv_Crash_Longitude_GDA94 : NumCell;
  csv_Count_Casualty_Fatality : NumCell;
  csv_Crash_Nature : string;
  csv_Crash_Type : string;
  csv_Crash_Severity : string;
  csv_Loc_Post_Code : string
}.

(** What is on disk under a path, as [read_csv] meets it: a file without
    columns, a file the tokenizer rejects, or a header and its lines.  The
    fields of a line under a name that is not in the header are never
    read. *)
Inductive CsvFile :=
| csv_empty
| csv_malformed
| csv_table (header : list string) (lines : list CsvRow).

(** A row of a [DataFrame]. *)
Record Row := {
  Crash_Latitude_GDA94 : Number;
  Crash_Longitude_GDA94 : Number;
  Count_Casualty_Fatality : Number;
  Crash_Nature : Value;
  Crash_Type : Value;
  Crash_Severity : Value;
  Loc_Post_Code : Value
}.

Record DataFrame := {
  df_columns : list string;
  df_rows : list Row
}.

(** The values of a column, in row order. *)
Definition column {A} (field : Row → A) (rows : list Row) : list A :=
  field <$> rows.

(** [df[name]]: the column, or a [KeyError]. *)
Definition getitem {A} (df : DataFrame) (name : string) (field : Row → A)
    : Result (list A) :=
  if bool_decide (name ∈ df_columns df)
  then Return (column field (df_rows df))
  else Raise (KeyError name).

(** [series == scalar]: the element-wise comparison with a string, a
    boolean mask.  A cell that is not a string is not equal to it. *)
Definition eq_scalar (series : list Value) (scalar : string) : list bool :=
  (λ v, bool_decide (v = VStr scalar)) <$> series.

(** [df[mask]]: the rows whose mask entry is [True]. *)
Fixpoint getitem_mask (rows : list Row) (mask : list bool) : list Row :=
  match rows, mask with
  | r :: rows', b :: mask' =>
      if b then r :: getitem_mask rows' mask' else getitem_mask rows' mask'
  | _, _ => []
  end.

(** The strings [read_csv] takes for a missing value (its default
    [na_values]); they become [NaN] whatever the dtype, in every column. *)
Definition na_values : list string :=
  [ ""; "#N/A"; "#N/A N/A"; "#NA"; "-1.#IND"; "-1.#QNAN"; "-NaN"; "-nan";
    "1.#IND"; "1.#QNAN"; "<NA>"; "N/A"; "NA"; "NULL"; "NaN"; "None";
    "n/a"; "nan"; "null" ].

Definition is_na (s : string) : bool := bool_decide (s ∈ na_values).

(** A field read as text. *)
Definition read_text (s : string) : Value :=
  if is_na s then VNaN else VStr s.

(** A column read as text (with [dtype=str], or because it holds text):
    every field keeps its text. *)
Definition read_text_column (raw : list string) : list Value :=
  (λ s, if is_na s then VNaN else VStr s) <$> raw.

Definition is_cell_int (c : NumCell) : bool :=
  match c with cell_int _ => true | _ => false end.

(** The dtype of a numeric column: [int64] when every field is an integer
    literal, [float64] as soon as one is a decimal or is missing. *)
Definition all_int (cells : list NumCell) : bool := forallb is_cell_int cells.

(** A field of a numeric column, read in a column that is all integers or
    not. *)
Definition read_number (ints : bool) (c : NumCell) : Number :=
  match c with
  | cell_int n => if ints then int64 n else float64 (inject_Z n)
  | cell_dec q => float64 q
  | cell_blank => NaN
  end.

(** The row [read_csv] makes of the line [r] of a file whose lines are
    [lines], when the postal code of the line came out as [code]. *)
Definition row_of (lines : list CsvRow) (r : CsvRow) (code : Value) : Row :=
  {| Crash_Latitude_GDA94 :=
       read_number (all_int (csv_Crash_Latitude_GDA94 <$> lines))
                   (csv_Crash_Latitude_GDA94 r);
     Crash_Longitude_GDA94 :=
       read_number (all_int (csv_Crash_Longitude_GDA94 <$> lines))
                   (csv_Crash_Longitude_GDA94 r);
     Count_Casualty_Fatality :=
       read_number (all_int (csv_Count_Casualty_Fatality <$> lines))
                   (csv_Count_Casualty_Fatality r);
     Crash_Nature := read_text (csv_Crash_Nature r);
     Crash_Type := read_text (csv_Crash_Type r);
     Crash_Severity := read_text (csv_Crash_Severity r);
     Loc_Post_Code := code |}.

(** [str(v)] of a cell of a text column. *)
Definition py_str (v : Value) : string :=
  match v with
  | VStr s => s
  | VInt n => pretty n
  | VNaN => "nan"
  end.

(** [float(x)] of a cell of a numeric column that is a number. *)
Definition to_float (x : Number) : option Q :=
  match x with
  | int64 n => Some (inject_Z n)
  | float64 q => Some q
  | NaN => None
  end.

End pd.

Import pd.

(** ** The process: its state, and the monad of the views *)

(** The state a view can see: the module-level variable [fatal] (line 19:
    [None] until a load has run), the files on disk by path, and what was
    printed so far. *)
Record World := {
  fatal : option DataFrame;
  disk : gmap string CsvFile;
  stdout : list string
}.

Definition M (A : Type) : Type := World → Result A * World.

#[export] Instance M_ret : MRet M := λ A a w, (Return a, w).

#[export] Instance M_bind : MBind M := λ A B k c w,
  match c w with
  | (Return a, w') => k a w'
  | (Raise e, w') => (Raise e, w')
  end.

(** A step that only computes: it returns or raises, and leaves the state. *)
Definition lift {A} (r : Result A) : M A := λ w, (r, w).

(** [fatal[name]] under [global fatal]: subscripting [None] raises a
    [TypeError], a name that is not a column a [KeyError]. *)
Definition getitem_fatal {A} (name : string) (field : Row → A) : M (list A) := λ w,
  match fatal w with
  | None => (Raise TypeError, w)
  | Some df => (getitem df name field, w)
  end.

(** [fatal = df] under [global fatal]. *)
Definition set_fatal (df : DataFrame) : M unit := λ w,
  (Return tt, {| fatal := Some df; disk := disk w; stdout := stdout w |}).

Definition print (line : string) : M unit := λ w,
  (Return tt, {| fatal := fatal w; disk := disk w; stdout := stdout w ++ [line] |}).

(** Python's [zip] of five lists: stops with the shortest. *)
Definition zip5 {A B C D E} (a : list A) (b : list B) (c : list C)
    (d : list D) (e : list E) : list (A * B * C * D * E) :=
  zip (zip (zip (zip a b) c) d) e.

(** [for x in items: body], threading what the body updates; a body that
    raises ends the loop. *)
Fixpoint for_in {A S} (items : list A) (body : S → A → M S) (s : S) : M S :=
  match items with
  | [] => mret s
  | x :: items' => s' ← body s x; for_in items' body s'
  end.

(** ** folium: elements and maps *)

Module folium.

Record CircleMarker := {
  location : list Q;
  radius : Z;
  color : string;
  fill : bool;
  fill_color : string;
  fillOpacity : Q;
  opacity : Q;
  tooltip : string;
  popup : string
}.

Record FeatureGroup := {
  fg_name : string;
  fg_show : bool;
  fg_children : list CircleMarker
}.

Record MarkerCluster := {
  mc_name : string;
  mc_show : bool;
  mc_control : bool;
  mc_children : list CircleMarker
}.

Record HeatMap := {
  hm_data : list (list Q);
  hm_name : string;
  hm_show : bool;
  hm_control : bool;
  hm_min_opacity : Q
}.

Record TileLayer := {
  tl_tiles : string;
  tl_name : string;
  tl_show : bool
}.

(** What can be added to a map. *)
Inductive Element :=
| ETileLayer (t : TileLayer)
| EFeatureGroup (g : FeatureGroup)
| EMarkerCluster (c : MarkerCluster)
| EHeatMap (h : HeatMap)
| ELayerControl.

Record Map := {
  tiles : option string;
  map_location : Q * Q;
  zoom_start : Z;
  width : string;
  height : string;
  control_scale : bool;
  map_children : list Element
}.

(** The check every marker makes of its [location]: two values, each a
    number; [NaN] is refused with a [ValueError]. *)
Definition validate_location (location : list Number) : Result (list Q) :=
  match location with
  | [y; x] =>
      match to_float y, to_float x with
      | Some qy, Some qx => Return [qy; qx]
      | _, _ => Raise ValueError
      end
  | _ => Raise ValueError
  end.

(** [CircleMarker(location=..., radius=..., color=..., fill=...,
    fill_color=..., fillOpacity=..., opacity=..., tooltip=..., popup=...)]:
    the location is validated first; the popup is shown as [str(popup)]. *)
Definition new_CircleMarker (location : list Number) (radius : Z)
    (color : string) (fill : bool) (fill_color : string)
    (fillOpacity opacity : Q) (tooltip : string) (popup : Value)
    : Result CircleMarker :=
  match validate_location location with
  | Return loc =>
      Return {| location := loc; radius := radius; color := color;
                fill := fill; fill_color := fill_color;
                fillOpacity := fillOpacity; opacity := opacity;
                tooltip := tooltip; popup := py_str popup |}
  | Raise e => Raise e
  end.

(** [HeatMap(data=..., name=..., show=..., control=..., min_opacity=...)]:
    data that holds a [NaN] is refused with a [ValueError]. *)
Definition new_HeatMap (data : list (list Number)) (name : string)
    (show control : bool) (min_opacity : Q) : Result HeatMap :=
  match mapM (mapM to_float) data with
  | Some points =>
      Return {| hm_data := points; hm_name := name; hm_show := show;
                hm_control := control; hm_min_opacity := min_opacity |}
  | None => Raise ValueError
  end.

(** [child.add_to(parent)]: the parent gets the child as its last child. *)
Class AddTo (Child Parent : Type) := add_to : Child → Parent → Parent.

#[export] Instance marker_to_group : AddTo CircleMarker FeatureGroup := λ c g,
  {| fg_name := fg_name g; fg_show := fg_show g;
     fg_children := fg_children g ++ [c] |}.

#[export] Instance marker_to_cluster : AddTo CircleMarker MarkerCluster := λ c g,
  {| mc_name := mc_name g; mc_show := mc_show g; mc_control := mc_control g;
     mc_children := mc_children g ++ [c] |}.

#[export] Instance element_to_map : AddTo Element Map := λ e m,
  {| tiles := tiles m; map_location := map_location m;
     zoom_start := zoom_start m; width := width m; height := height m;
     control_scale := control_scale m;
     map_children := map_children m ++ [e] |}.

(** The three fragments folium renders a map into.  The markup itself is
    the library's business; a fragment is known by the map it renders and
    by which of the three it is. *)
Inductive Markup :=
| html_render (root : Map)
| header_render (root : Map)
| script_render (root : Map).

End folium.

Import folium.

(** ** Flask: what a view returns, and what the client gets *)

(** [render_template(name, map_div=..., hdr_txt=..., script_txt=..., title=...)]. *)
Record Page := render_template {
  template : string;
  map_div : Markup;
  hdr_txt : Markup;
  script_txt : Markup;
  title : string
}.

(** The value a view function returns: a rendered page, or [None] when the
    function ends without a [return]. *)
Inductive Rv :=
| rv_None
| rv_str (page : Page).

Record Response := {
  status_code : Z;
  body : option Page
}.

(** Flask's handling of a view: a returned page is sent with status 200; a
    view that raises, or returns [None] (which [make_response] rejects with
    a [TypeError]), is answered with 500 Internal Server Error. *)
Definition full_dispatch_request (view : M Rv) (w : World) : Response * World :=
  match view w with
  | (Return (rv_str page), w') => ({| status_code := 200; body := Some page |}, w')
  | (Return rv_None, w') => ({| status_code := 500; body := None |}, w')
  | (Raise _, w') => ({| status_code := 500; body := None |}, w')
  end.

(** ** The program *)

Section Program.

(** pandas' type inference for a column no dtype was given for.  The
    program always gives one for [Loc_Post_Code], so what inference would
    do with that column is left open. *)
Variable infer_column : list string → list Value.

(** Python's text for a float that is a number, as an f-string prints it
    ([2.0] for the float two).  It is met when the fatality column holds a
    float, which it does as soon as one of its fields is missing. *)
Variable format_float : Q → string.

(** [f'{x}'] of a cell of a numeric column. *)
Definition format_number (x : Number) : string :=
  match x with
  | int64 n => pretty n
  | float64 q => format_float q
  | NaN => "nan"
  end.

(** [pd.read_csv(filepath, dtype=...)], for the columns modelled: the
    header of the file and its lines in order, every field converted by the
    type of its column, [Loc_Post_Code] as [dtype] says. *)
Definition read_csv (filepath : string) (dtype : gmap string dtype) : M DataFrame := λ w,
  match disk w !! filepath with
  | None => (Raise FileNotFoundError, w)
  | Some csv_empty => (Raise EmptyDataError, w)
  | Some csv_malformed => (Raise ParserError, w)
  | Some (csv_table header lines) =>
      let raw := csv_Loc_Post_Code <$> lines in
      let codes :=
        match dtype !! "Loc_Post_Code" with
        | Some str => read_text_column raw
        | None => infer_column raw
        end in
      (Return {| df_columns := header;
                 df_rows := zip_with (row_of lines) lines codes |}, w)
  end.

(** Line 276, right-hand side, on the rows of a frame that has the column:
    [crashes[crashes["Crash_Severity"] == 'Fatal']]. *)
Definition select_fatal (crashes : list Row) : list Row :=
  getitem_mask crashes (eq_scalar (column Crash_Severity crashes) "Fatal").

Definition load_crash_data : M DataFrame :=
  let crash_path := "locations.csv" in
  crashes ← read_csv crash_path {[ "Loc_Post_Code" := str ]};
  severity ← lift (getitem crashes "Crash_Severity" Crash_Severity);
  let fatal :=
    {| df_columns := df_columns crashes;
       df_rows := getitem_mask (df_rows crashes) (eq_scalar severity "Fatal") |} in
  set_fatal fatal;;
  mret fatal.

Definition add_heat_map (folium_map : Map) : M Map :=
  lat ← getitem_fatal "Crash_Latitude_GDA94" Crash_Latitude_GDA94;
  lng ← getitem_fatal "Crash_Longitude_GDA94" Crash_Longitude_GDA94;
  let heat_in := (λ '(y, x), [y; x]) <$> zip lat lng in
  heat_map ← lift (new_HeatMap heat_in "Heat Map" false true 0.5%Q);
  mret (add_to (EHeatMap heat_map) folium_map).

Definition add_markers (folium_map : Map) : M Map :=
  lat ← getitem_fatal "Crash_Latitude_GDA94" Crash_Latitude_GDA94;
  lng ← getitem_fatal "Crash_Longitude_GDA94" Crash_Longitude_GDA94;
  dead_count ← getitem_fatal "Count_Casualty_Fatality" Count_Casualty_Fatality;
  crash_nature ← getitem_fatal "Crash_Nature" Crash_Nature;
  crash_type ← getitem_fatal "Crash_Type" Crash_Type;
  let FATAL_MARKER_SIZE := 10 in
  let FATAL_MARKER_FILL_OPACITY := 0.25%Q in
  let fatal_fg :=
    {| fg_name := "Fatal Crashes"; fg_show := true; fg_children := [] |} in
  fatal_fg ←
    for_in (zip5 lat lng dead_count crash_nature crash_type)
      (λ fatal_fg '(marker_y, marker_x, marker_dc, marker_cn, marker_ct),
         circ_mkr ←
           lift (new_CircleMarker
                   [marker_y; marker_x]
                   FATAL_MARKER_SIZE
                   "red"
                   true
                   "red"
                   FATAL_MARKER_FILL_OPACITY
                   FATAL_MARKER_FILL_OPACITY
                   (format_number marker_dc +:+ " Dead")
                   marker_cn);
         mret (add_to circ_mkr fatal_fg))
      fatal_fg;
  mret (add_to (EFeatureGroup fatal_fg) folium_map).

Definition add_clusters (folium_map : Map) : M Map :=
  lat ← getitem_fatal "Crash_Latitude_GDA94" Crash_Latitude_GDA94;
  lng ← getitem_fatal "Crash_Longitude_GDA94" Crash_Longitude_GDA94;
  dead_count ← getitem_fatal "Count_Casualty_Fatality" Count_Casualty_Fatality;
  crash_nature ← getitem_fatal "Crash_Nature" Crash_Nature;
  crash_type ← getitem_fatal "Crash_Type" Crash_Type;
  let FATAL_MARKER_SIZE := 10 in
  let FATAL_MARKER_FILL_OPACITY := 0.25%Q in
  let clusters :=
    {| mc_name := "Clustered Markers"; mc_show := false; mc_control := true;
       mc_children := [] |} in
  clusters ←
    for_in (zip5 lat lng dead_count crash_nature crash_type)
      (λ clusters '(marker_y, marker_x, marker_dc, marker_cn, marker_ct),
         circ_mkr ←
           lift (new_CircleMarker
                   [marker_y; marker_x]
                   FATAL_MARKER_SIZE
                   "red"
                   true
                   "red"
                   FATAL_MARKER_FILL_OPACITY
                   FATAL_MARKER_FILL_OPACITY
                   (format_number marker_dc +:+ " Dead")
                   marker_cn);
         mret (add_to circ_mkr clusters))
      clusters;
  mret (add_to (EMarkerCluster clusters) folium_map).

(** [/_ah/warmup]: the function ends without a [return]. *)
Definition warmup : M Rv :=
  print "data loading ...";;
  load_crash_data;;
  print "data loaded";;
  mret rv_None.

(** [/crashmap].  Forcing the render with [_repr_html_] (line 235) changes
    nothing the three fragments depend on; they are taken from the map as
    composed. *)
Definition crashmap : M Rv :=
  let start_coords := ((-26.52)%Q, 153.09%Q) in
  let folium_map :=
    {| tiles := None; map_location := start_coords; zoom_start := 13;
       width := "80%"; height := "80%"; control_scale := true;
       map_children := [] |} in
  let folium_map :=
    add_to (ETileLayer {| tl_tiles := "OpenStreetMap";
                          tl_name := "Open Street Map"; tl_show := true |})
           folium_map in
  let folium_map :=
    add_to (ETileLayer {| tl_tiles := "stamentoner";
                          tl_name := "Black/White Map"; tl_show := false |})
           folium_map in
  folium_map ← add_markers folium_map;
  folium_map ← add_clusters folium_map;
  folium_map ← add_heat_map folium_map;
  let folium_map := add_to ELayerControl folium_map in
  let map_div := html_render folium_map in
  let hdr_txt := header_render folium_map in
  let script_txt := script_render folium_map in
  mret (rv_str (render_template "crashmap.html" map_div hdr_txt script_txt
                  "QLD Crash Map Annotated")).

(** The [__main__] block up to [app.run]: the load at process start. *)
Definition main : M unit :=
  print "data loading ...";;
  load_crash_data;;
  print "data loaded".

End Program.

(** ** Vocabulary of the specification *)

(** The seven columns the program names. *)
Definition modelled_columns : list string :=
  [ "Crash_Latitude_GDA94"; "Crash_Longitude_GDA94"; "Count_Casualty_Fatality";
    "Crash_Nature"; "Crash_Type"; "Crash_Severity"; "Loc_Post_Code" ].

(** The dataset made of the records [F]: a frame that has every column. *)
Definition frame (F : list Row) : DataFrame :=
  {| df_columns := modelled_columns; df_rows := F |}.

(** A file that has every column, with the lines [lines]. *)
Definition csv_file (lines : list CsvRow) : CsvFile :=
  csv_table modelled_columns lines.

(** The fatal-crash filter as the specification words it: the records whose
    severity field equals the sentinel, in the order of the dataset. *)
Definition Filter_spec (D : list Row) : list Row :=
  filter (λ r, Crash_Severity r = VStr "Fatal") D.

(** [sub in s] for strings. *)
Fixpoint contains (sub s : string) : bool :=
  String.prefix sub s ||
  match s with
  | EmptyString => false
  | String _ s' => contains sub s'
  end.

Definition is_number (x : Number) : bool :=
  match x with NaN => false | _ => true end.

(** A record that has both its coordinates. *)
Definition located (r : Row) : bool :=
  is_number (Crash_Latitude_GDA94 r) && is_number (Crash_Longitude_GDA94 r).

(** The number a cell holds (0 for a missing one, which no statement below
    looks at). *)
Definition number_value (x : Number) : Q := default 0%Q (to_float x).

(** The circle marker both marker loops ask folium for, for one record. *)
Definition marker_of (format_float : Q → string) (r : Row) : Result CircleMarker :=
  new_CircleMarker [Crash_Latitude_GDA94 r; Crash_Longitude_GDA94 r]
    10 "red" true "red" 0.25%Q 0.25%Q
    (format_number format_float (Count_Casualty_Fatality r) +:+ " Dead")
    (Crash_Nature r).

(** The results of [mk] on the items of a list, in order, if none raises;
    else what the first one that raises raised. *)
Fixpoint collect {A C} (mk : A → Result C) (l : list A) : Result (list C) :=
  match l with
  | [] => Return []
  | x :: l' =>
      match mk x with
      | Return c =>
          match collect mk l' with
          | Return cs => Return (c :: cs)
          | Raise e => Raise e
          end
      | Raise e => Raise e
      end
  end.

(** The markers of a dataset, if folium makes them all. *)
Definition markers_of (format_float : Q → string) (F : list Row)
    : Result (list CircleMarker) :=
  collect (marker_of format_float) F.

(** The circle marker of a record that has its coordinates. *)
Definition marker_at (format_float : Q → string) (r : Row) : CircleMarker :=
  {| location := [number_value (Crash_Latitude_GDA94 r);
                  number_value (Crash_Longitude_GDA94 r)];
     radius := 10;
     color := "red";
     fill := true;
     fill_color := "red";
     fillOpacity := 0.25%Q;
     opacity := 0.25%Q;
     tooltip := format_number format_float (Count_Casualty_Fatality r) +:+ " Dead";
     popup := py_str (Crash_Nature r) |}.

(** The heat point of a record that has its coordinates. *)
Definition heat_point (r : Row) : list Q :=
  [number_value (Crash_Latitude_GDA94 r); number_value (Crash_Longitude_GDA94 r)].





(** Two datasets that agree row by row on every column but [Crash_Type]. *)
Definition same_but_Crash_Type (F G : list Row) : Prop :=
  Forall2
    (λ r s,
       Crash_Latitude_GDA94 r = Crash_Latitude_GDA94 s
       ∧ Crash_Longitude_GDA94 r = Crash_Longitude_GDA94 s
       ∧ Count_Casualty_Fatality r = Count_Casualty_Fatality s
       ∧ Crash_Nature r = Crash_Nature s
       ∧ Crash_Severity r = Crash_Severity s
       ∧ Loc_Post_Code r = Loc_Post_Code s)
    F G.

(** A postal code written with a leading zero. *)
Definition has_leading_zero (s : string) : bool :=
  match s with
  | String "0"%char _ => true
  | _ => false
  end.

(** The rows [read_csv] makes of the lines of a file under the dtype of
    line 275. *)
Definition frame_of (lines : list CsvRow) : list Row :=
  zip_with (row_of lines) lines (read_text_column (csv_Loc_Post_Code <$> lines)).

(** The map [crashmap] composes from a dataset whose records all have their
    coordinates. *)
Definition composed_map (format_float : Q → string) (F : list Row) : Map :=
  {| tiles := None; map_location := ((-26.52)%Q, 153.09%Q); zoom_start := 13;
     width := "80%"; height := "80%"; control_scale := true;
     map_children :=
       [ ETileLayer {| tl_tiles := "OpenStreetMap"; tl_name := "Open Street Map";
                       tl_show := true |};
         ETileLayer {| tl_tiles := "stamentoner"; tl_name := "Black/White Map";
                       tl_show := false |};
         EFeatureGroup {| fg_name := "Fatal Crashes"; fg_show := true;
                          fg_children := marker_at format_float <$> F |};
         EMarkerCluster {| mc_name := "Clustered Markers"; mc_show := false;
                           mc_control := true;
                           mc_children := marker_at format_float <$> F |};
         EHeatMap {| hm_data := heat_point <$> F;
                     hm_name := "Heat Map"; hm_show := false;
                     hm_control := true; hm_min_opacity := 0.5%Q |};
         ELayerControl ] |}.

(** A state with the dataset [F] loaded. *)
Definition loaded (F : list Row) (d : gmap string CsvFile)
    (out : list string) : World :=
  {| fatal := Some (frame F); disk := d; stdout := out |}.

(** The state of a process in which no load has run. *)
Definition unloaded (d : gmap string CsvFile) (out : list string) : World :=
  {| fatal := None; disk := d; stdout := out |}.

(** ** Sample data *)

Definition sample_row (lat lng : Q) (dead : Z) (nature type severity : string)
    (code : string) : CsvRow :=
  {| csv_Crash_Latitude_GDA94 := cell_dec lat;
     csv_Crash_Longitude_GDA94 := cell_dec lng;
     csv_Count_Casualty_Fatality := cell_int dead; csv_Crash_Nature := nature;
     csv_Crash_Type := type; csv_Crash_Severity := severity;
     csv_Loc_Post_Code := code |}.

(** Three fatal and two other records. *)
Definition sample_csv : list CsvRow :=
  [ sample_row (-26.5) 153.1 2 "Head-on" "Multi-Vehicle" "Fatal" "4551";
    sample_row (-27.4) 153.0 0 "Rear-end" "Multi-Vehicle" "Hospitalisation" "4000";
    sample_row (-12.4) 130.8 1 "Hit pedestrian" "Hit pedestrian" "Fatal" "0800";
    sample_row (-26.6) 153.0 0 "Angle" "Multi-Vehicle" "fatal" "4556";
    sample_row (-16.9) 145.7 3 "Overturned" "Single Vehicle" "Fatal" "4870" ].

Definition sample_frame : list Row := frame_of sample_csv.

Definition sample_disk : gmap string CsvFile :=
  {[ "locations.csv" := csv_file sample_csv ]}.

(** The record of the sample whose postal code starts with a zero. *)
Definition sample_leading_zero : CsvRow :=
  sample_row (-12.4) 130.8 1 "Hit pedestrian" "Hit pedestrian" "Fatal" "0800".

(** The fatal records of the sample, and the same records with another
    crash type. *)
Definition sample_fatal : list Row := select_fatal sample_frame.

Definition sample_fatal_retyped : list Row :=
  (λ r, {| Crash_Latitude_GDA94 := Crash_Latitude_GDA94 r;
           Crash_Longitude_GDA94 := Crash_Longitude_GDA94 r;
           Count_Casualty_Fatality := Count_Casualty_Fatality r;
           Crash_Nature := Crash_Nature r;
           Crash_Type := VStr "Other";
           Crash_Severity := Crash_Severity r;
           Loc_Post_Code := Loc_Post_Code r |}) <$> sample_fatal.

(** A file with two fatal lines, the second without a latitude, and the
    dataset a load makes of it. *)
Definition sample_csv_unlocated : list CsvRow :=
  [ sample_row (-26.5) 153.1 2 "Head-on" "Multi-Vehicle" "Fatal" "4551";
    {| csv_Crash_Latitude_GDA94 := cell_blank;
       csv_Crash_Longitude_GDA94 := cell_dec 153.0;
       csv_Count_Casualty_Fatality := cell_int 1;
       csv_Crash_Nature := "Overturned"; csv_Crash_Type := "Single Vehicle";
       csv_Crash_Severity := "Fatal"; csv_Loc_Post_Code := "4556" |} ].

Definition sample_unlocated : list Row :=
  select_fatal (frame_of sample_csv_unlocated).

Definition sample_disk_unlocated : gmap string CsvFile :=
  {[ "locations.csv" := csv_file sample_csv_unlocated ]}.

(** The sample map the builders are tried on: no child yet. *)
Definition sample_map : Map :=
  {| tiles := None; map_location := ((-26.52)%Q, 153.09%Q); zoom_start := 13;
     width := "80%"; height := "80%"; control_scale := true;
     map_children := [] |}.

(** Python's text for the floats of the samples (none is met: the sample
    counts are integers). *)
Definition sample_format_float : Q → string := λ _, "".

(** ** Vocabulary of the further properties *)

(** The invariant of the process state: what [fatal] holds, if anything, is
    made of fatal records only. *)
Definition only_fatal (w : World) : Prop :=
  ∀ F, fatal w = Some F →
    Forall (λ r, Crash_Severity r = VStr "Fatal") (df_rows F).

(** A computation that returned. *)
Definition returns {A} (x : Result A * World) : Prop :=
  ∃ a, x.1 = Return a.

(** A request to one of the two routes whose views touch the dataset:
    [/_ah/warmup] and [/crashmap]. *)
Inductive request := GET_warmup | GET_crashmap.

#[export] Instance request_eq_dec : EqDecision request.
Proof. solve_decision. Defined.

(** The route table for these two paths. *)
Definition handle (infer_column : list string → list Value)
    (format_float : Q → string) (rq : request) (w : World) : Response * World :=
  match rq with
  | GET_warmup => full_dispatch_request (warmup infer_column) w
  | GET_crashmap => full_dispatch_request (crashmap format_float) w
  end.

(** The process state after a sequence of requests, served one at a time. *)
Definition serve (infer_column : list string → list Value)
    (format_float : Q → string) (rqs : list request) (w : World) : World :=
  foldl (λ w rq, (handle infer_column format_float rq w).2) w rqs.

(** What a load makes of the file it finds: the frame of the fatal rows,
    with the columns of the file, or the error of [read_csv] or of line
    276. *)
Definition loaded_frame (file : CsvFile) : Result DataFrame :=
  match file with
  | csv_empty => Raise EmptyDataError
  | csv_malformed => Raise ParserError
  | csv_table header lines =>
      if bool_decide ("Crash_Severity" ∈ header)
      then Return {| df_columns := header;
                     df_rows := select_fatal (frame_of lines) |}
      else Raise (KeyError "Crash_Severity")
  end.

(** A computation that only reads [fatal]: it leaves the state as it is,
    and what it returns or raises depends on the state through [fatal]
    alone. *)
Definition reader {A} (c : M A) : Prop :=
  ∀ w, (c w).2 = w ∧ ∀ w', fatal w = fatal w' → (c w).1 = (c w').1.

(** The number a numeric field of the file holds (0 for a missing one,
    which no statement below looks at). *)
Definition cell_value (c : NumCell) : Q :=
  match c with
  | cell_int n => inject_Z n
  | cell_dec q => q
  | cell_blank => 0%Q
  end.

(** The file lines whose severity is ["Fatal"]. *)
Definition fatal_csv_rows (lines : list CsvRow) : list CsvRow :=
  filter (λ row, csv_Crash_Severity row = "Fatal") lines.

(** A file line that has both its coordinates. *)
Definition csv_located (row : CsvRow) : bool :=
  match csv_Crash_Latitude_GDA94 row, csv_Crash_Longitude_GDA94 row with
  | cell_blank, _ | _, cell_blank => false
  | _, _ => true
  end.

(** ** The filter *)

Section Filter.

Implicit Types D F : list Row.

Lemma select_fatal_cons r D :
  select_fatal (r :: D) =
    if bool_decide (Crash_Severity r = VStr "Fatal")
    then r :: select_fatal D else select_fatal D.
Proof. reflexivity. Qed.

(** The mask-and-index of the source selects what the specification's
    filter selects. *)
Lemma select_fatal_filter D : select_fatal D = Filter_spec D.
Proof.
  unfold Filter_spec.
  induction D as [|r D IH]; [done|].
  rewrite select_fatal_cons, filter_cons, IH.
  by case_bool_decide; case_decide.
Qed.

Lemma select_fatal_elem_of D r :
  r ∈ select_fatal D ↔ r ∈ D ∧ Crash_Severity r = VStr "Fatal".
Proof.
  rewrite select_fatal_filter. unfold Filter_spec.
  rewrite list_elem_of_filter. tauto.
Qed.

Lemma select_fatal_all_fatal D :
  Forall (λ r, Crash_Severity r = VStr "Fatal") (select_fatal D).
Proof.
  apply Forall_forall. intros r Hr.
  by apply select_fatal_elem_of in Hr as [_ ?].
Qed.

Lemma select_fatal_fixed D :
  Forall (λ r, Crash_Severity r = VStr "Fatal") D → select_fatal D = D.
Proof.
  induction 1 as [|r D Hr _ IH]; [done|].
  rewrite select_fatal_cons, IH. by rewrite bool_decide_eq_true_2.
Qed.


(** The sample of three fatal and two other records: the filter keeps the
    first, third and fifth, in that order; ["fatal"] is not ["Fatal"]. *)
Example select_fatal_sample :
  Crash_Nature <$> select_fatal sample_frame
    = [VStr "Head-on"; VStr "Hit pedestrian"; VStr "Overturned"].
Proof. reflexivity. Qed.

(** C9. The filter is idempotent: filtering a filtered dataset changes
    nothing. *)
Theorem select_fatal_idempotent D :
  select_fatal (select_fatal D) = select_fatal D.
Proof. apply select_fatal_fixed, select_fatal_all_fatal. Qed.

Lemma select_fatal_nil_iff D :
  select_fatal D = [] ↔ Forall (λ r, Crash_Severity r ≠ VStr "Fatal") D.
Proof.
  induction D as [|r D IH]; [done|].
  rewrite select_fatal_cons, Forall_cons. case_bool_decide as Hr.
  - split; [done|]. by intros [? _].
  - rewrite IH. tauto.
Qed.

(** X1. The filter works row by row.  The fatal records of two datasets
    put end to end are the fatal records of the first followed by those of
    the second; and no record is selected exactly when no record of the
    dataset is fatal. *)
Theorem select_fatal_row_by_row D1 D2 :
  select_fatal (D1 ++ D2)%list = (select_fatal D1 ++ select_fatal D2)%list
  ∧ (select_fatal D1 = [] ↔ Forall (λ r, Crash_Severity r ≠ VStr "Fatal") D1).
Proof.
  split; [|apply select_fatal_nil_iff].
  rewrite !select_fatal_filter. apply filter_app.
Qed.

End Filter.

(** ** The layer builders on a loaded dataset *)

Section Layers.

Variable format_float : Q → string.

Implicit Types F G : list Row.
Implicit Types d : gmap string CsvFile.
Implicit Types w : World.

(** Reading a column of a loaded dataset cannot fail. *)
Lemma getitem_fatal_loaded {A B} name (field : Row → A) (k : list A → M B) F d out :
  name ∈ modelled_columns →
  (getitem_fatal name field ≫= k) (loaded F d out)
  = k (column field F) (loaded F d out).
Proof.
  intros Hin. unfold mbind, M_bind, getitem_fatal, getitem. cbn.
  by rewrite bool_decide_eq_true_2.
Qed.

Lemma getitem_fatal_unloaded {A B} name (field : Row → A) (k : list A → M B) d out :
  (getitem_fatal name field ≫= k) (unloaded d out) = (Raise TypeError, unloaded d out).
Proof. reflexivity. Qed.

Lemma lift_Return {A B} (a : A) (k : A → M B) w :
  (lift (Return a) ≫= k) w = k a w.
Proof. reflexivity. Qed.

Lemma lift_Raise {A B} e (k : A → M B) w :
  (lift (Raise e) ≫= k) w = (Raise e, w).
Proof. reflexivity. Qed.

(** The five columns, zipped, are the rows again. *)
Lemma zip5_columns F :
  zip5 (column Crash_Latitude_GDA94 F) (column Crash_Longitude_GDA94 F)
       (column Count_Casualty_Fatality F) (column Crash_Nature F)
       (column Crash_Type F)
  = (λ r, (Crash_Latitude_GDA94 r, Crash_Longitude_GDA94 r,
           Count_Casualty_Fatality r, Crash_Nature r, Crash_Type r)) <$> F.
Proof.
  unfold zip5, column.
  induction F as [|r F IH]; [done|].
  cbn [fmap list_fmap zip zip_with] in *. by rewrite IH.
Qed.

Lemma zip_lat_lng F :
  zip (column Crash_Latitude_GDA94 F) (column Crash_Longitude_GDA94 F)
  = (λ r, (Crash_Latitude_GDA94 r, Crash_Longitude_GDA94 r)) <$> F.
Proof.
  unfold column.
  induction F as [|r F IH]; [done|].
  cbn [fmap list_fmap zip zip_with] in *. by rewrite IH.
Qed.

(** A loop whose body asks for one thing per item and adds it: the loop
    adds them all, in order, or raises what the first failing item raised
    and adds nothing that lasts. *)
Lemma for_in_collect {A B S C} (g : A → B) (body : S → B → M S)
    (mk : A → Result C) (upd : C → S → S) :
  (∀ s x, body s (g x) = (lift (mk x) ≫= λ c, mret (upd c s))) →
  ∀ (l : list A) (s : S) w,
    for_in (g <$> l) body s w
    = (match collect mk l with
       | Return cs => Return (foldl (λ s c, upd c s) s cs)
       | Raise e => Raise e
       end, w).
Proof.
  intros Hbody. induction l as [|x l IH]; intros s w; [done|].
  cbn [fmap list_fmap for_in collect].
  unfold mbind at 1, M_bind at 1. rewrite Hbody.
  destruct (mk x) as [c|e]; [|done].
  rewrite lift_Return. unfold mret, M_ret. rewrite IH.
  by destruct (collect mk l).
Qed.

Lemma foldl_add_to_group (cs : list CircleMarker) g :
  foldl (λ g c, add_to c g) g cs
  = {| fg_name := fg_name g; fg_show := fg_show g;
       fg_children := fg_children g ++ cs |}.
Proof.
  revert g. induction cs as [|c cs IH]; intros [n s ch].
  - cbn. by rewrite app_nil_r.
  - cbn [foldl]. rewrite IH. cbn. by rewrite <-app_assoc.
Qed.

Lemma foldl_add_to_cluster (cs : list CircleMarker) g :
  foldl (λ g c, add_to c g) g cs
  = {| mc_name := mc_name g; mc_show := mc_show g; mc_control := mc_control g;
       mc_children := mc_children g ++ cs |}.
Proof.
  revert g. induction cs as [|c cs IH]; intros [n s ctl ch].
  - cbn. by rewrite app_nil_r.
  - cbn [foldl]. rewrite IH. cbn. by rewrite <-app_assoc.
Qed.

(** folium makes the marker of a record exactly when the record has both
    its coordinates. *)
Lemma marker_of_located r :
  marker_of format_float r
  = if located r then Return (marker_at format_float r) else Raise ValueError.
Proof.
  unfold marker_of, marker_at, located, new_CircleMarker, validate_location,
    number_value.
  by destruct (Crash_Latitude_GDA94 r), (Crash_Longitude_GDA94 r).
Qed.

Lemma markers_of_located F :
  markers_of format_float F
  = if forallb located F then Return (marker_at format_float <$> F)
    else Raise ValueError.
Proof.
  unfold markers_of. induction F as [|r F IH]; [done|].
  cbn [collect forallb fmap list_fmap]. rewrite marker_of_located, IH.
  destruct (located r); [|done]. by destruct (forallb located F).
Qed.

Lemma heat_point_located r :
  mapM to_float [Crash_Latitude_GDA94 r; Crash_Longitude_GDA94 r]
  = if located r then Some (heat_point r) else None.
Proof.
  unfold located, heat_point, number_value.
  by destruct (Crash_Latitude_GDA94 r), (Crash_Longitude_GDA94 r).
Qed.

Lemma heat_points_located F :
  mapM (mapM to_float)
    ((λ r, [Crash_Latitude_GDA94 r; Crash_Longitude_GDA94 r]) <$> F)
  = if forallb located F then Some (heat_point <$> F) else None.
Proof.
  induction F as [|r F IH]; [done|].
  cbn [fmap list_fmap forallb].
  change (mapM (mapM to_float) (?x :: ?l))
    with (mapM to_float x ≫= λ y, mapM (mapM to_float) l ≫= λ k, mret (y :: k)).
  rewrite heat_point_located, IH.
  by destruct (located r), (forallb located F).
Qed.

(** What [add_markers] does on a loaded dataset: one more child on the
    map, the group of the records' markers, or a [ValueError] when a record
    lacks a coordinate. *)
Lemma add_markers_loaded F folium_map d out :
  add_markers format_float folium_map (loaded F d out)
  = (if forallb located F
     then Return (add_to (EFeatureGroup
                            {| fg_name := "Fatal Crashes"; fg_show := true;
                               fg_children := marker_at format_float <$> F |})
                         folium_map)
     else Raise ValueError,
     loaded F d out).
Proof.
  unfold add_markers.
  repeat (rewrite getitem_fatal_loaded
            by (unfold modelled_columns; set_solver); cbv beta).
  cbv zeta. rewrite zip5_columns.
  unfold mbind at 1, M_bind at 1.
  rewrite (for_in_collect _ _ (marker_of format_float) add_to)
    by (intros; reflexivity).
  fold (markers_of format_float F). rewrite markers_of_located.
  destruct (forallb located F); [|done].
  by rewrite foldl_add_to_group.
Qed.

Lemma add_clusters_loaded F folium_map d out :
  add_clusters format_float folium_map (loaded F d out)
  = (if forallb located F
     then Return (add_to (EMarkerCluster
                            {| mc_name := "Clustered Markers";
                               mc_show := false; mc_control := true;
                               mc_children := marker_at format_float <$> F |})
                         folium_map)
     else Raise ValueError,
     loaded F d out).
Proof.
  unfold add_clusters.
  repeat (rewrite getitem_fatal_loaded
            by (unfold modelled_columns; set_solver); cbv beta).
  cbv zeta. rewrite zip5_columns.
  unfold mbind at 1, M_bind at 1.
  rewrite (for_in_collect _ _ (marker_of format_float) add_to)
    by (intros; reflexivity).
  fold (markers_of format_float F). rewrite markers_of_located.
  destruct (forallb located F); [|done].
  by rewrite foldl_add_to_cluster.
Qed.

Lemma add_heat_map_loaded F folium_map d out :
  add_heat_map folium_map (loaded F d out)
  = (if forallb located F
     then Return (add_to (EHeatMap {| hm_data := heat_point <$> F;
                                      hm_name := "Heat Map"; hm_show := false;
                                      hm_control := true;
                                      hm_min_opacity := 0.5%Q |})
                         folium_map)
     else Raise ValueError,
     loaded F d out).
Proof.
  unfold add_heat_map.
  repeat (rewrite getitem_fatal_loaded
            by (unfold modelled_columns; set_solver); cbv beta).
  cbv zeta. rewrite zip_lat_lng, <-list_fmap_compose.
  unfold new_HeatMap.
  change (mapM (mapM to_float) _)
    with (mapM (mapM to_float)
            ((λ r, [Crash_Latitude_GDA94 r; Crash_Longitude_GDA94 r]) <$> F)).
  rewrite heat_points_located. by destruct (forallb located F).
Qed.

Lemma forallb_located F :
  forallb located F = true ↔ Forall (λ r, located r = true) F.
Proof.
  rewrite forallb_forall, Forall_forall.
  split; intros H r Hr; apply H; by apply list_elem_of_In.
Qed.

End Layers.

(** ** Strings *)

Lemma prefix_append (s t : string) : String.prefix s (s +:+ t) = true.
Proof.
  induction s as [|a s IH].
  - by destruct t.
  - change (String.prefix (String a s) (String a (s +:+ t)) = true).
    cbn. destruct (Ascii.ascii_dec a a); [done|congruence].
Qed.

Lemma contains_prefix (sub s : string) :
  String.prefix sub s = true → contains sub s = true.
Proof. intros H. destruct s; cbn [contains]; by rewrite H. Qed.

Lemma contains_append (s t : string) : contains s (s +:+ t) = true.
Proof. apply contains_prefix, prefix_append. Qed.

Lemma contains_self (s : string) : contains s s = true.
Proof.
  apply contains_prefix. induction s as [|a s IH]; cbn; [done|].
  destruct (Ascii.ascii_dec a a); [done|congruence].
Qed.

(** ** Claims about the layers *)

Section LayerClaims.

Variable format_float : Q → string.

Implicit Types F G : list Row.
Implicit Types d : gmap string CsvFile.

Lemma located_to_float r :
  located r = true →
  to_float (Crash_Latitude_GDA94 r) = Some (number_value (Crash_Latitude_GDA94 r))
  ∧ to_float (Crash_Longitude_GDA94 r)
    = Some (number_value (Crash_Longitude_GDA94 r)).
Proof.
  unfold located, number_value.
  by destruct (Crash_Latitude_GDA94 r), (Crash_Longitude_GDA94 r).
Qed.

(** C2, as the code has it.  For every filtered dataset [F] whose records
    all have a latitude and a longitude, [add_markers] puts on the map one
    group ["Fatal Crashes"] with exactly [|F|] markers; the [i]-th marker
    is placed at the [i]-th record's latitude and longitude, its tooltip is
    that record's fatality count as Python prints it followed by [" Dead"]
    (so it contains the count: its digits when the count is an integer),
    and its popup is that record's crash nature as text (the text itself
    when there is one).  Each marker is made from its own record only. *)
Theorem add_markers_one_marker_per_record F folium_map d out :
  Forall (λ r, located r = true) F →
  ∃ markers,
    add_markers format_float folium_map (loaded F d out)
    = (Return (add_to (EFeatureGroup {| fg_name := "Fatal Crashes";
                                        fg_show := true;
                                        fg_children := markers |})
                      folium_map),
       loaded F d out)
    ∧ length markers = length F
    ∧ ∀ i r, F !! i = Some r →
        ∃ c y x, markers !! i = Some c
          ∧ to_float (Crash_Latitude_GDA94 r) = Some y
          ∧ to_float (Crash_Longitude_GDA94 r) = Some x
          ∧ location c = [y; x]
          ∧ tooltip c
            = format_number format_float (Count_Casualty_Fatality r) +:+ " Dead"
          ∧ contains (format_number format_float (Count_Casualty_Fatality r))
                     (tooltip c) = true
          ∧ (∀ n, Count_Casualty_Fatality r = int64 n →
               contains (pretty n) (tooltip c) = true)
          ∧ popup c = py_str (Crash_Nature r)
          ∧ contains (py_str (Crash_Nature r)) (popup c) = true
          ∧ (∀ s, Crash_Nature r = VStr s → popup c = s).
Proof.
  intros Hloc. exists (marker_at format_float <$> F). split_and!.
  - rewrite add_markers_loaded.
    by rewrite (proj2 (forallb_located F) Hloc).
  - apply length_fmap.
  - intros i r Hi.
    assert (located r = true) as Hr.
    { eapply Forall_forall in Hloc; [exact Hloc|].
      by eapply list_elem_of_lookup_2. }
    destruct (located_to_float r Hr) as [Hy Hx].
    exists (marker_at format_float r),
      (number_value (Crash_Latitude_GDA94 r)),
      (number_value (Crash_Longitude_GDA94 r)).
    split_and!; try done.
    + by rewrite list_lookup_fmap, Hi.
    + apply contains_append.
    + intros n Hn. cbn. rewrite Hn. apply contains_append.
    + apply contains_self.
    + intros s Hs. cbn. by rewrite Hs.
Qed.

(** C4. With an empty filtered dataset each of the three builders returns
    normally, and the layer it adds to the map (as the map's last child)
    has no element. *)
Theorem builders_on_empty_dataset folium_map d out :
  add_markers format_float folium_map (loaded [] d out)
  = (Return
       {| tiles := tiles folium_map; map_location := map_location folium_map;
          zoom_start := zoom_start folium_map; width := width folium_map;
          height := height folium_map;
          control_scale := control_scale folium_map;
          map_children :=
            map_children folium_map ++
            [EFeatureGroup {| fg_name := "Fatal Crashes"; fg_show := true;
                              fg_children := [] |}] |},
     loaded [] d out)
  ∧ add_clusters format_float folium_map (loaded [] d out)
  = (Return
       {| tiles := tiles folium_map; map_location := map_location folium_map;
          zoom_start := zoom_start folium_map; width := width folium_map;
          height := height folium_map;
          control_scale := control_scale folium_map;
          map_children :=
            map_children folium_map ++
            [EMarkerCluster {| mc_name := "Clustered Markers"; mc_show := false;
                               mc_control := true; mc_children := [] |}] |},
     loaded [] d out)
  ∧ add_heat_map folium_map (loaded [] d out)
  = (Return
       {| tiles := tiles folium_map; map_location := map_location folium_map;
          zoom_start := zoom_start folium_map; width := width folium_map;
          height := height folium_map;
          control_scale := control_scale folium_map;
          map_children :=
            map_children folium_map ++
            [EHeatMap {| hm_data := []; hm_name := "Heat Map"; hm_show := false;
                         hm_control := true; hm_min_opacity := 0.5%Q |}] |},
     loaded [] d out).
Proof. split_and!; reflexivity. Qed.


End LayerClaims.

(** ** The views *)

Section Views.

Variable infer_column : list string → list Value.
Variable format_float : Q → string.

Implicit Types F G : list Row.
Implicit Types d : gmap string CsvFile.
Implicit Types w : World.

Lemma bind_Return {A B} (c : M A) (k : A → M B) w a w' :
  c w = (Return a, w') → (c ≫= k) w = k a w'.
Proof. intros H. unfold mbind, M_bind. by rewrite H. Qed.

Lemma bind_Raise {A B} (c : M A) (k : A → M B) w e w' :
  c w = (Raise e, w') → (c ≫= k) w = (Raise e, w').
Proof. intros H. unfold mbind, M_bind. by rewrite H. Qed.

Lemma read_csv_found w path header lines :
  disk w !! path = Some (csv_table header lines) →
  read_csv infer_column path {[ "Loc_Post_Code" := str ]} w
  = (Return {| df_columns := header; df_rows := frame_of lines |}, w).
Proof.
  intros H. unfold read_csv. rewrite H, lookup_singleton_eq. reflexivity.
Qed.

Lemma read_csv_missing w path dtype :
  disk w !! path = None →
  read_csv infer_column path dtype w = (Raise FileNotFoundError, w).
Proof. intros H. unfold read_csv. by rewrite H. Qed.

(** What a load does, by what it finds on disk: it stores and returns the
    frame of the fatal rows, or raises and leaves the state as it was. *)
Lemma load_crash_data_outcome w :
  load_crash_data infer_column w
  = match disk w !! "locations.csv" with
    | None => (Raise FileNotFoundError, w)
    | Some file =>
        match loaded_frame file with
        | Return F =>
            (Return F, {| fatal := Some F; disk := disk w; stdout := stdout w |})
        | Raise e => (Raise e, w)
        end
    end.
Proof.
  unfold load_crash_data. cbv zeta.
  destruct (disk w !! "locations.csv") as [[| |header lines]|] eqn:H.
  - erewrite bind_Raise; [done|]. unfold read_csv. by rewrite H.
  - erewrite bind_Raise; [done|]. unfold read_csv. by rewrite H.
  - erewrite bind_Return by (by apply read_csv_found).
    unfold getitem, loaded_frame. cbn [df_columns df_rows].
    case_bool_decide; [|done]. reflexivity.
  - erewrite bind_Raise by (by apply read_csv_missing). reflexivity.
Qed.

Lemma loaded_frame_csv_file (lines : list CsvRow) :
  loaded_frame (csv_file lines) = Return (frame (select_fatal (frame_of lines))).
Proof. reflexivity. Qed.

(** A load that finds a file with every column sets [fatal] to the fatal
    rows and returns them. *)
Lemma load_crash_data_found w lines :
  disk w !! "locations.csv" = Some (csv_file lines) →
  load_crash_data infer_column w
  = (Return (frame (select_fatal (frame_of lines))),
     loaded (select_fatal (frame_of lines)) (disk w) (stdout w)).
Proof. intros H. by rewrite load_crash_data_outcome, H. Qed.

Lemma load_crash_data_missing w :
  disk w !! "locations.csv" = None →
  load_crash_data infer_column w = (Raise FileNotFoundError, w).
Proof. intros H. by rewrite load_crash_data_outcome, H. Qed.

(** The warm-up view and the [__main__] block around their load: the first
    line is printed, then the load runs, then, if it returned, the second
    line is printed. *)
Lemma warmup_outcome w :
  warmup infer_column w
  = match load_crash_data infer_column
            {| fatal := fatal w; disk := disk w;
               stdout := stdout w ++ ["data loading ..."] |} with
    | (Return _, w') =>
        (Return rv_None,
         {| fatal := fatal w'; disk := disk w';
            stdout := stdout w' ++ ["data loaded"] |})
    | (Raise e, w') => (Raise e, w')
    end.
Proof.
  unfold warmup, mbind, M_bind, print. cbn.
  by destruct (load_crash_data _ _) as [[?|?] ?].
Qed.

Lemma main_outcome w :
  main infer_column w
  = match load_crash_data infer_column
            {| fatal := fatal w; disk := disk w;
               stdout := stdout w ++ ["data loading ..."] |} with
    | (Return _, w') =>
        (Return tt,
         {| fatal := fatal w'; disk := disk w';
            stdout := stdout w' ++ ["data loaded"] |})
    | (Raise e, w') => (Raise e, w')
    end.
Proof.
  unfold main, mbind, M_bind, print. cbn.
  by destruct (load_crash_data _ _) as [[?|?] ?].
Qed.

Lemma warmup_found w lines :
  disk w !! "locations.csv" = Some (csv_file lines) →
  warmup infer_column w
  = (Return rv_None,
     loaded (select_fatal (frame_of lines)) (disk w)
            (stdout w ++ ["data loading ..."; "data loaded"])).
Proof.
  intros H. rewrite warmup_outcome, load_crash_data_outcome. cbn [disk].
  rewrite H, loaded_frame_csv_file. unfold loaded. cbn.
  by rewrite <-app_assoc.
Qed.

Lemma warmup_missing w :
  disk w !! "locations.csv" = None →
  warmup infer_column w
  = (Raise FileNotFoundError,
     {| fatal := fatal w; disk := disk w;
        stdout := stdout w ++ ["data loading ..."] |}).
Proof.
  intros H. rewrite warmup_outcome, load_crash_data_outcome. cbn [disk].
  by rewrite H.
Qed.

(** The view of the warm-up path never yields a page: whatever the state
    and the disk, the client gets status 500. *)
Lemma warmup_status w :
  status_code (full_dispatch_request (warmup infer_column) w).1 = 500.
Proof.
  unfold full_dispatch_request. rewrite warmup_outcome.
  by destruct (load_crash_data _ _) as [[?|?] ?].
Qed.

(** The load at process start leaves the dataset set when the file is there. *)
Lemma main_found w lines :
  disk w !! "locations.csv" = Some (csv_file lines) →
  main infer_column w
  = (Return tt,
     loaded (select_fatal (frame_of lines)) (disk w)
            (stdout w ++ ["data loading ..."; "data loaded"])).
Proof.
  intros H. rewrite main_outcome, load_crash_data_outcome. cbn [disk].
  rewrite H, loaded_frame_csv_file. unfold loaded. cbn.
  by rewrite <-app_assoc.
Qed.

(** What [crashmap] does on a loaded dataset: the page of the composed map,
    or a [ValueError] when a record lacks a coordinate. *)
Lemma crashmap_loaded F d out :
  crashmap format_float (loaded F d out)
  = (if forallb located F
     then Return (rv_str (render_template "crashmap.html"
                            (html_render (composed_map format_float F))
                            (header_render (composed_map format_float F))
                            (script_render (composed_map format_float F))
                            "QLD Crash Map Annotated"))
     else Raise ValueError,
     loaded F d out).
Proof.
  unfold crashmap. cbv zeta.
  destruct (forallb located F) eqn:Hloc.
  - erewrite bind_Return by (by rewrite add_markers_loaded, Hloc).
    erewrite bind_Return by (by rewrite add_clusters_loaded, Hloc).
    erewrite bind_Return by (by rewrite add_heat_map_loaded, Hloc).
    reflexivity.
  - erewrite bind_Raise by (by rewrite add_markers_loaded, Hloc).
    reflexivity.
Qed.

(** After a warm-up request, or the load at process start, that found a
    file with every column and every fatal record located, a map request
    is answered with status 200. *)
Lemma crashmap_after_warmup w lines :
  disk w !! "locations.csv" = Some (csv_file lines) →
  forallb located (select_fatal (frame_of lines)) = true →
  status_code
    (full_dispatch_request (crashmap format_float)
       (full_dispatch_request (warmup infer_column) w).2).1 = 200.
Proof.
  intros H Hloc. unfold full_dispatch_request at 2.
  rewrite (warmup_found _ _ H). cbn [snd].
  unfold full_dispatch_request. by rewrite crashmap_loaded, Hloc.
Qed.

Lemma crashmap_after_main w lines :
  disk w !! "locations.csv" = Some (csv_file lines) →
  forallb located (select_fatal (frame_of lines)) = true →
  status_code
    (full_dispatch_request (crashmap format_float) (main infer_column w).2).1
  = 200.
Proof.
  intros H Hloc. rewrite (main_found _ _ H). cbn [snd].
  unfold full_dispatch_request. by rewrite crashmap_loaded, Hloc.
Qed.

Lemma crashmap_unloaded d out :
  crashmap format_float (unloaded d out) = (Raise TypeError, unloaded d out).
Proof. reflexivity. Qed.

End Views.

(** ** Claims about the views *)

Lemma leading_zero_not_na (s : string) :
  has_leading_zero s = true → is_na s = false.
Proof.
  intros Hz. apply bool_decide_eq_false. intros Hin.
  unfold na_values in Hin.
  repeat (apply elem_of_cons in Hin as [->|Hin]; [done|]).
  by apply elem_of_nil in Hin.
Qed.

Lemma frame_of_lookup (lines : list CsvRow) (i : nat) (row : CsvRow) :
  lines !! i = Some row →
  has_leading_zero (csv_Loc_Post_Code row) = true →
  frame_of lines !! i = Some (row_of lines row (VStr (csv_Loc_Post_Code row))).
Proof.
  intros Hi Hz. unfold frame_of, read_text_column.
  rewrite lookup_zip_with, !list_lookup_fmap, Hi. cbn.
  by rewrite (leading_zero_not_na _ Hz).
Qed.

Lemma located_same_but_Crash_Type (F G : list Row) :
  same_but_Crash_Type F G → forallb located F = forallb located G.
Proof.
  induction 1 as [|r s F G (Hlat & Hlng & _) _ IH]; [done|].
  cbn [forallb]. unfold located at 1 3. by rewrite Hlat, Hlng, IH.
Qed.

Lemma marker_at_same_but_Crash_Type ff (F G : list Row) :
  same_but_Crash_Type F G → marker_at ff <$> F = marker_at ff <$> G.
Proof.
  induction 1 as [|r s F G (Hlat & Hlng & Hdc & Hcn & _) _ IH]; [done|].
  cbn [fmap list_fmap] in *. f_equal; [|done].
  unfold marker_at. by rewrite Hlat, Hlng, Hdc, Hcn.
Qed.

Lemma heat_point_same_but_Crash_Type (F G : list Row) :
  same_but_Crash_Type F G → heat_point <$> F = heat_point <$> G.
Proof.
  induction 1 as [|r s F G (Hlat & Hlng & _) _ IH]; [done|].
  cbn [fmap list_fmap] in *. unfold heat_point at 1 3.
  by rewrite Hlat, Hlng, IH.
Qed.

Section ViewClaims.

Variable infer_column : list string → list Value.
Variable format_float : Q → string.

Implicit Types F G : list Row.
Implicit Types d : gmap string CsvFile.
Implicit Types w : World.


(** C5, as the code has it.  There is no lazy load.  A map request that
    finds the dataset state unset fails: the first column read of
    [add_markers] raises [TypeError], the client gets status 500 and the
    state stays unset. *)
Theorem crashmap_needs_loaded_dataset d out :
  crashmap format_float (unloaded d out) = (Raise TypeError, unloaded d out)
  ∧ full_dispatch_request (crashmap format_float) (unloaded d out)
    = ({| status_code := 500; body := None |}, unloaded d out).
Proof. split; reflexivity. Qed.

(** C6, at a request that shows the defect.  In a fresh process whose
    [locations.csv] is the sample file, a request to the warm-up path loads
    and filters the dataset and prints both log lines, but the view returns
    [None], so the client gets status 500, not 200. *)
Theorem warmup_sample_request :
  warmup infer_column (unloaded sample_disk [])
  = (Return rv_None,
     loaded (select_fatal sample_frame) sample_disk
            ["data loading ..."; "data loaded"])
  ∧ full_dispatch_request (warmup infer_column) (unloaded sample_disk [])
  = ({| status_code := 500; body := None |},
     loaded (select_fatal sample_frame) sample_disk
            ["data loading ..."; "data loaded"]).
Proof.
  assert (warmup infer_column (unloaded sample_disk [])
          = (Return rv_None,
             loaded (select_fatal sample_frame) sample_disk
                    ["data loading ..."; "data loaded"])) as H.
  { by rewrite (warmup_found _ _ sample_csv). }
  split; [done|]. unfold full_dispatch_request. by rewrite H.
Qed.

(** C8. [load_crash_data] reads [locations.csv] with the dtype
    [{'Loc_Post_Code': str}].  So for every file, a postal code written
    with a leading zero is, in the frame read, the text of the file
    unchanged, and not an integer; and when its record is fatal, the record
    with that text is in the dataset the load returns and stores. *)
Theorem post_code_read_as_text w rows i row :
  disk w !! "locations.csv" = Some (csv_file rows) →
  rows !! i = Some row →
  has_leading_zero (csv_Loc_Post_Code row) = true →
  ∃ crashes r,
    read_csv infer_column "locations.csv" {[ "Loc_Post_Code" := str ]} w
    = (Return crashes, w)
    ∧ df_rows crashes !! i = Some r
    ∧ r = row_of rows row (VStr (csv_Loc_Post_Code row))
    ∧ (∀ n, Loc_Post_Code r ≠ VInt n)
    ∧ (csv_Crash_Severity row = "Fatal" →
       ∃ (F : DataFrame) w',
         load_crash_data infer_column w = (Return F, w')
         ∧ fatal w' = Some F
         ∧ r ∈ df_rows F).
Proof.
  intros Hfile Hi Hz.
  exists {| df_columns := modelled_columns; df_rows := frame_of rows |},
    (row_of rows row (VStr (csv_Loc_Post_Code row))).
  split_and!; try done.
  - by apply read_csv_found.
  - by apply frame_of_lookup.
  - intros Hfatal. eexists _, _. split_and!.
    + by apply load_crash_data_found.
    + reflexivity.
    + apply select_fatal_elem_of. split.
      * eapply list_elem_of_lookup_2. by apply frame_of_lookup.
      * cbn. by rewrite Hfatal.
Qed.

(** C10. [Crash_Type] influences no output.  For two filtered datasets
    that differ at most in their [Crash_Type] values, the three builders
    return the same map, and the map request gets the same response. *)
Theorem Crash_Type_influences_nothing F G folium_map d out :
  same_but_Crash_Type F G →
  (add_markers format_float folium_map (loaded F d out)).1
    = (add_markers format_float folium_map (loaded G d out)).1
  ∧ (add_clusters format_float folium_map (loaded F d out)).1
    = (add_clusters format_float folium_map (loaded G d out)).1
  ∧ (add_heat_map folium_map (loaded F d out)).1
    = (add_heat_map folium_map (loaded G d out)).1
  ∧ (full_dispatch_request (crashmap format_float) (loaded F d out)).1
    = (full_dispatch_request (crashmap format_float) (loaded G d out)).1.
Proof.
  intros H.
  pose proof (marker_at_same_but_Crash_Type format_float _ _ H) as Hm.
  pose proof (heat_point_same_but_Crash_Type _ _ H) as Hh.
  pose proof (located_same_but_Crash_Type _ _ H) as Hl.
  unfold full_dispatch_request.
  rewrite !add_markers_loaded, !add_clusters_loaded, !add_heat_map_loaded,
    !crashmap_loaded.
  unfold composed_map. cbn [fst]. rewrite Hm, Hh, Hl.
  by destruct (forallb located G).
Qed.

End ViewClaims.

(** ** Further properties: the layers *)

Section LayerProperties.

Variable format_float : Q → string.

Implicit Types F G : list Row.
Implicit Types d : gmap string CsvFile.
Implicit Types w : World.

(** X3. For every loaded dataset [F] whose records all have a latitude and
    a longitude, [add_heat_map] adds to the map one heat map named
    ["Heat Map"], hidden, with a toggle and minimum opacity 0.5, whose data
    has exactly [|F|] points; the [i]-th point is the pair
    [[latitude, longitude]] of the [i]-th record, latitude first. *)
Theorem add_heat_map_one_point_per_record F folium_map d out :
  Forall (λ r, located r = true) F →
  ∃ heat_in,
    add_heat_map folium_map (loaded F d out)
    = (Return (add_to (EHeatMap {| hm_data := heat_in; hm_name := "Heat Map";
                                   hm_show := false; hm_control := true;
                                   hm_min_opacity := 0.5%Q |})
                      folium_map),
       loaded F d out)
    ∧ length heat_in = length F
    ∧ ∀ i r, F !! i = Some r →
        ∃ y x, to_float (Crash_Latitude_GDA94 r) = Some y
          ∧ to_float (Crash_Longitude_GDA94 r) = Some x
          ∧ heat_in !! i = Some [y; x].
Proof.
  intros Hloc. exists (heat_point <$> F). split_and!.
  - by rewrite add_heat_map_loaded, (proj2 (forallb_located F) Hloc).
  - apply length_fmap.
  - intros i r Hi.
    assert (located r = true) as Hr.
    { eapply Forall_forall in Hloc; [exact Hloc|].
      by eapply list_elem_of_lookup_2. }
    destruct (located_to_float r Hr) as [Hy Hx].
    exists (number_value (Crash_Latitude_GDA94 r)),
      (number_value (Crash_Longitude_GDA94 r)).
    split_and!; try done. by rewrite list_lookup_fmap, Hi.
Qed.

Lemma forallb_located_false F :
  Exists (λ r, located r = false) F → forallb located F = false.
Proof.
  intros H. apply not_true_is_false. intros Hall.
  apply forallb_located in Hall. apply Exists_exists in H as (r & Hr & Hf).
  eapply Forall_forall in Hall; [|exact Hr]. congruence.
Qed.

(** X13. A record without a coordinate stops every layer.  When the loaded
    dataset holds a record whose latitude or longitude is missing, each of
    the three builders raises [ValueError] and adds nothing to the map, and
    a map request is answered with status 500; the state is left as it
    was. *)
Theorem unlocated_record_stops_the_map F folium_map d out :
  Exists (λ r, located r = false) F →
  add_markers format_float folium_map (loaded F d out)
  = (Raise ValueError, loaded F d out)
  ∧ add_clusters format_float folium_map (loaded F d out)
    = (Raise ValueError, loaded F d out)
  ∧ add_heat_map folium_map (loaded F d out)
    = (Raise ValueError, loaded F d out)
  ∧ full_dispatch_request (crashmap format_float) (loaded F d out)
    = ({| status_code := 500; body := None |}, loaded F d out).
Proof.
  intros H. apply forallb_located_false in H.
  unfold full_dispatch_request.
  rewrite add_markers_loaded, add_clusters_loaded, add_heat_map_loaded,
    crashmap_loaded, H.
  by split_and!.
Qed.

Lemma reader_ret {A} (a : A) : reader (mret a : M A).
Proof. intros w. split; [done|]. by intros w' _. Qed.

Lemma reader_lift {A} (r : Result A) : reader (lift r).
Proof. intros w. split; [done|]. by intros w' _. Qed.

Lemma reader_getitem_fatal {A} name (field : Row → A) :
  reader (getitem_fatal name field).
Proof.
  intros w. unfold getitem_fatal. split.
  - by destruct (fatal w).
  - intros w' Hw. rewrite <-Hw. by destruct (fatal w).
Qed.

Lemma reader_bind {A B} (c : M A) (k : A → M B) :
  reader c → (∀ a, reader (k a)) → reader (c ≫= k).
Proof.
  intros Hc Hk w. unfold mbind, M_bind.
  destruct (Hc w) as [Hs Hr]. split.
  - destruct (c w) as [[a|e] w1]; cbn in Hs; subst w1; [|done].
    apply (Hk a w).
  - intros w' Hw. specialize (Hr w' Hw). destruct (Hc w') as [Hs' _].
    destruct (c w) as [[a|e] w1], (c w') as [[a'|e'] w1'];
      cbn in *; subst; try done.
    + injection Hr as ->. by apply (Hk a' w).
    + by injection Hr as ->.
Qed.

Lemma reader_for_in {A S} (items : list A) (body : S → A → M S) s :
  (∀ s x, reader (body s x)) → reader (for_in items body s).
Proof.
  intros Hbody. revert s. induction items as [|x items IH]; intros s.
  - apply reader_ret.
  - cbn [for_in]. apply reader_bind; [apply Hbody|apply IH].
Qed.

Lemma reader_add_markers folium_map : reader (add_markers format_float folium_map).
Proof.
  unfold add_markers.
  repeat (apply reader_bind; [apply reader_getitem_fatal|intros ?]).
  cbv zeta. apply reader_bind; [|intros; apply reader_ret].
  apply reader_for_in. intros s [[[[? ?] ?] ?] ?].
  apply reader_bind; [apply reader_lift|intros; apply reader_ret].
Qed.

Lemma reader_add_clusters folium_map : reader (add_clusters format_float folium_map).
Proof.
  unfold add_clusters.
  repeat (apply reader_bind; [apply reader_getitem_fatal|intros ?]).
  cbv zeta. apply reader_bind; [|intros; apply reader_ret].
  apply reader_for_in. intros s [[[[? ?] ?] ?] ?].
  apply reader_bind; [apply reader_lift|intros; apply reader_ret].
Qed.

Lemma reader_add_heat_map folium_map : reader (add_heat_map folium_map).
Proof.
  unfold add_heat_map.
  repeat (apply reader_bind; [apply reader_getitem_fatal|intros ?]).
  cbv zeta. apply reader_bind; [apply reader_lift|intros; apply reader_ret].
Qed.

Lemma reader_crashmap : reader (crashmap format_float).
Proof.
  unfold crashmap. cbv zeta.
  apply reader_bind; [apply reader_add_markers|intros ?].
  apply reader_bind; [apply reader_add_clusters|intros ?].
  apply reader_bind; [apply reader_add_heat_map|intros ?].
  apply reader_ret.
Qed.

(** X4. The builders and the map view only read the process state.
    Whatever the state, and whether they return or raise, [add_markers],
    [add_clusters], [add_heat_map] and [crashmap] leave the dataset, the
    disk and the output as they found them; and what they return or raise
    depends on the state through [fatal] alone, not on the disk or the
    output. *)
Theorem builders_and_crashmap_read_only folium_map :
  reader (add_markers format_float folium_map)
  ∧ reader (add_clusters format_float folium_map)
  ∧ reader (add_heat_map folium_map)
  ∧ reader (crashmap format_float).
Proof.
  split_and!.
  - apply reader_add_markers.
  - apply reader_add_clusters.
  - apply reader_add_heat_map.
  - apply reader_crashmap.
Qed.

End LayerProperties.

(** ** Further properties: loads and requests *)

Section RequestProperties.

Variable infer_column : list string → list Value.
Variable format_float : Q → string.

Implicit Types F G : list Row.
Implicit Types d : gmap string CsvFile.
Implicit Types w : World.
Implicit Types rqs : list request.

Lemma full_dispatch_request_state (view : M Rv) w :
  (full_dispatch_request view w).2 = (view w).2.
Proof.
  unfold full_dispatch_request. by destruct (view w) as [[[|page]|e] w'].
Qed.

Lemma crashmap_state w : (crashmap format_float w).2 = w.
Proof. apply reader_crashmap. Qed.

Lemma crashmap_response_fatal w1 w2 :
  fatal w1 = fatal w2 →
  (full_dispatch_request (crashmap format_float) w1).1
  = (full_dispatch_request (crashmap format_float) w2).1.
Proof.
  intros H. unfold full_dispatch_request.
  destruct (reader_crashmap format_float w1) as [_ Hr].
  specialize (Hr w2 H).
  destruct (crashmap format_float w1) as [r1 w1'],
    (crashmap format_float w2) as [r2 w2'].
  cbn in Hr. subst r2. by destruct r1 as [[|page]|e].
Qed.

(** X6. A load that does not find [locations.csv] raises
    [FileNotFoundError] and changes nothing: the dataset of an earlier load
    stays in place.  So after a warm-up request that failed this way, the
    state differs only by the first log line, and a map request is answered
    as it was before. *)
Theorem failed_load_keeps_dataset w :
  disk w !! "locations.csv" = None →
  load_crash_data infer_column w = (Raise FileNotFoundError, w)
  ∧ (full_dispatch_request (warmup infer_column) w).2
    = {| fatal := fatal w; disk := disk w;
         stdout := stdout w ++ ["data loading ..."] |}
  ∧ (full_dispatch_request (crashmap format_float)
       (full_dispatch_request (warmup infer_column) w).2).1
    = (full_dispatch_request (crashmap format_float) w).1.
Proof.
  intros H.
  assert ((full_dispatch_request (warmup infer_column) w).2
          = {| fatal := fatal w; disk := disk w;
               stdout := stdout w ++ ["data loading ..."] |}) as Hw.
  { by rewrite full_dispatch_request_state, (warmup_missing _ _ H). }
  split_and!; [by apply load_crash_data_missing|done|].
  apply crashmap_response_fatal. by rewrite Hw.
Qed.

(** X14. A load that raises changes nothing.  Whatever makes
    [load_crash_data] raise (no file, a file without columns, a file that
    cannot be tokenized, a file without the [Crash_Severity] column), the
    state after is the state before: [fatal] keeps the dataset of an
    earlier load, or stays unset. *)
Theorem raising_load_changes_nothing w e :
  (load_crash_data infer_column w).1 = Raise e →
  (load_crash_data infer_column w).2 = w.
Proof.
  rewrite load_crash_data_outcome.
  destruct (disk w !! "locations.csv") as [file|]; [|done].
  by destruct (loaded_frame file).
Qed.

Lemma read_text_Fatal (s : string) : read_text s = VStr "Fatal" ↔ s = "Fatal".
Proof.
  unfold read_text. split.
  - destruct (is_na s); [done|]. by intros [= ->].
  - by intros ->.
Qed.

(** The rows read from a file, line by line. *)
Lemma zip_row_of (L lines : list CsvRow) :
  zip_with (row_of L) lines (read_text_column (csv_Loc_Post_Code <$> lines))
  = (λ row, row_of L row (read_text (csv_Loc_Post_Code row))) <$> lines.
Proof.
  unfold read_text_column.
  induction lines as [|row lines IH]; [done|].
  cbn [fmap list_fmap zip_with] in *. by rewrite IH.
Qed.

Lemma select_fatal_fmap_row_of (L lines : list CsvRow) :
  select_fatal ((λ row, row_of L row (read_text (csv_Loc_Post_Code row))) <$> lines)
  = (λ row, row_of L row (read_text (csv_Loc_Post_Code row)))
      <$> fatal_csv_rows lines.
Proof.
  unfold fatal_csv_rows.
  induction lines as [|row lines IH]; [done|].
  cbn [fmap list_fmap]. rewrite select_fatal_cons, filter_cons, IH.
  cbn [Crash_Severity row_of].
  case_bool_decide as H1; case_decide as H2; try done.
  - by apply read_text_Fatal in H1.
  - by apply read_text_Fatal in H2.
Qed.

(** The fatal rows of the frame read are the rows made of the fatal lines
    of the file. *)
Lemma select_fatal_frame_of (lines : list CsvRow) :
  select_fatal (frame_of lines)
  = (λ row, row_of lines row (read_text (csv_Loc_Post_Code row)))
      <$> fatal_csv_rows lines.
Proof. unfold frame_of. by rewrite zip_row_of, select_fatal_fmap_row_of. Qed.

(** X7. A load that finds a file with a [Crash_Severity] column replaces
    the dataset.  It returns and stores a frame with the columns of the
    file whose rows are the rows read from the lines of severity
    ["Fatal"], in file order, whatever dataset was there before; it
    touches neither the disk nor the output, and loading again gives the
    same result and the same state. *)
Theorem load_replaces_dataset w header lines :
  disk w !! "locations.csv" = Some (csv_table header lines) →
  "Crash_Severity" ∈ header →
  ∃ D : DataFrame,
    df_columns D = header
    ∧ df_rows D
      = (λ row, row_of lines row (read_text (csv_Loc_Post_Code row)))
          <$> fatal_csv_rows lines
    ∧ load_crash_data infer_column w
      = (Return D, {| fatal := Some D; disk := disk w; stdout := stdout w |})
    ∧ load_crash_data infer_column (load_crash_data infer_column w).2
      = load_crash_data infer_column w.
Proof.
  intros H Hsev.
  exists {| df_columns := header; df_rows := select_fatal (frame_of lines) |}.
  assert (load_crash_data infer_column w
          = (Return {| df_columns := header;
                       df_rows := select_fatal (frame_of lines) |},
             {| fatal := Some {| df_columns := header;
                                 df_rows := select_fatal (frame_of lines) |};
                disk := disk w; stdout := stdout w |})) as Hl.
  { rewrite load_crash_data_outcome, H. cbn.
    by rewrite bool_decide_eq_true_2. }
  split_and!; try done.
  - apply select_fatal_frame_of.
  - rewrite Hl. cbn [snd]. rewrite load_crash_data_outcome. cbn [disk].
    rewrite H. cbn. by rewrite bool_decide_eq_true_2.
Qed.

(** X8. The warm-up view and the load at process start do the same to the
    process: they leave the same state, dataset, disk and output alike; one
    returns exactly when the other does, which is exactly when
    [locations.csv] is on disk, can be tokenized and has a
    [Crash_Severity] column. *)
Theorem warmup_same_state_as_main w :
  (warmup infer_column w).2 = (main infer_column w).2
  ∧ (returns (warmup infer_column w) ↔ returns (main infer_column w))
  ∧ (returns (warmup infer_column w)
     ↔ ∃ header lines,
         disk w !! "locations.csv" = Some (csv_table header lines)
         ∧ "Crash_Severity" ∈ header).
Proof.
  rewrite warmup_outcome, main_outcome, load_crash_data_outcome. cbn [disk].
  unfold returns.
  destruct (disk w !! "locations.csv") as [[| |header lines]|]; cbn.
  - split_and!; [done|split; by intros [? ?]|].
    split; [by intros [? ?]|]. by intros (? & ? & ? & _).
  - split_and!; [done|split; by intros [? ?]|].
    split; [by intros [? ?]|]. by intros (? & ? & ? & _).
  - case_bool_decide as Hsev; cbn.
    + split_and!; [done|split; eauto|]. split; eauto.
    + split_and!; [done|split; by intros [? ?]|].
      split; [by intros [? ?]|]. by intros (? & ? & [= <- _] & ?).
  - split_and!; [done|split; by intros [? ?]|].
    split; [by intros [? ?]|]. by intros (? & ? & ? & _).
Qed.

Lemma handle_crashmap_state w :
  (handle infer_column format_float GET_crashmap w).2 = w.
Proof. cbn. by rewrite full_dispatch_request_state, crashmap_state. Qed.

(** The state after a warm-up request, by what the load finds. *)
Lemma handle_warmup_state w :
  (handle infer_column format_float GET_warmup w).2
  = match disk w !! "locations.csv" ≫= λ file,
            match loaded_frame file with
            | Return D => Some D
            | Raise _ => None
            end
    with
    | Some D =>
        {| fatal := Some D; disk := disk w;
           stdout := stdout w ++ ["data loading ..."; "data loaded"] |}
    | None =>
        {| fatal := fatal w; disk := disk w;
           stdout := stdout w ++ ["data loading ..."] |}
    end.
Proof.
  cbn [handle].
  rewrite full_dispatch_request_state, warmup_outcome, load_crash_data_outcome.
  cbn [disk].
  destruct (disk w !! "locations.csv") as [file|]; cbn; [|done].
  destruct (loaded_frame file); cbn; [|done]. by rewrite <-app_assoc.
Qed.

Lemma handle_warmup_found w lines :
  disk w !! "locations.csv" = Some (csv_file lines) →
  (handle infer_column format_float GET_warmup w).2
  = loaded (select_fatal (frame_of lines)) (disk w)
           (stdout w ++ ["data loading ..."; "data loaded"]).
Proof. intros H. by rewrite handle_warmup_state, H. Qed.

Lemma handle_disk rq w : disk (handle infer_column format_float rq w).2 = disk w.
Proof.
  destruct rq.
  - rewrite handle_warmup_state. by destruct (_ ≫= _).
  - by rewrite handle_crashmap_state.
Qed.

Lemma handle_stdout rq w :
  stdout w `prefix_of` stdout (handle infer_column format_float rq w).2.
Proof.
  destruct rq.
  - rewrite handle_warmup_state. destruct (_ ≫= _); by apply prefix_app_r.
  - by rewrite handle_crashmap_state.
Qed.

Lemma loaded_frame_only_fatal file (D : DataFrame) :
  loaded_frame file = Return D →
  Forall (λ r, Crash_Severity r = VStr "Fatal") (df_rows D).
Proof.
  destruct file as [| |header lines]; cbn; try done.
  case_bool_decide; [|done]. intros [= <-]. apply select_fatal_all_fatal.
Qed.

Lemma handle_only_fatal rq w :
  only_fatal w → only_fatal (handle infer_column format_float rq w).2.
Proof.
  intros Hw. destruct rq.
  - rewrite handle_warmup_state.
    destruct (disk w !! "locations.csv") as [file|]; cbn; [|exact Hw].
    destruct (loaded_frame file) as [D|e] eqn:HD; cbn; [|exact Hw].
    intros D' [= <-]. by eapply loaded_frame_only_fatal.
  - by rewrite handle_crashmap_state.
Qed.

Lemma serve_cons rq rqs w :
  serve infer_column format_float (rq :: rqs) w
  = serve infer_column format_float rqs (handle infer_column format_float rq w).2.
Proof. reflexivity. Qed.

(** X9. The dataset invariant.  From a state in which [fatal] is unset or
    holds fatal records only (a fresh process is such a state), no sequence
    of warm-up and map requests leads to a state in which [fatal] holds a
    record that is not fatal. *)
Theorem only_fatal_invariant rqs w :
  only_fatal w → only_fatal (serve infer_column format_float rqs w).
Proof.
  revert w. induction rqs as [|rq rqs IH]; intros w Hw; [done|].
  rewrite serve_cons. by apply IH, handle_only_fatal.
Qed.

(** X10. What requests never do.  Over any sequence of warm-up and map
    requests the files on disk stay as they are, and what was printed stays
    printed: the output after the requests starts with the output before. *)
Theorem serve_keeps_disk_and_output rqs w :
  disk (serve infer_column format_float rqs w) = disk w
  ∧ stdout w `prefix_of` stdout (serve infer_column format_float rqs w).
Proof.
  revert w. induction rqs as [|rq rqs IH]; intros w; [done|].
  rewrite serve_cons.
  destruct (IH (handle infer_column format_float rq w).2) as [Hd Ho].
  split.
  - by rewrite Hd, handle_disk.
  - etrans; [apply handle_stdout|exact Ho].
Qed.

Lemma serve_cold rqs w :
  GET_warmup ∉ rqs → serve infer_column format_float rqs w = w.
Proof.
  revert w. induction rqs as [|rq rqs IH]; intros w Hn; [done|].
  rewrite serve_cons. apply not_elem_of_cons in Hn as [Hrq Hn].
  destruct rq; [done|]. rewrite handle_crashmap_state. by apply IH.
Qed.

Lemma serve_stable rqs w lines :
  disk w !! "locations.csv" = Some (csv_file lines) →
  fatal w = Some (frame (select_fatal (frame_of lines))) →
  fatal (serve infer_column format_float rqs w)
  = Some (frame (select_fatal (frame_of lines))).
Proof.
  revert w. induction rqs as [|rq rqs IH]; intros w Hd Hf; [done|].
  rewrite serve_cons. apply IH.
  - by rewrite handle_disk.
  - destruct rq.
    + by rewrite (handle_warmup_found _ _ Hd).
    + by rewrite handle_crashmap_state.
Qed.

Lemma serve_warm rqs w lines :
  disk w !! "locations.csv" = Some (csv_file lines) →
  GET_warmup ∈ rqs →
  fatal (serve infer_column format_float rqs w)
  = Some (frame (select_fatal (frame_of lines))).
Proof.
  revert w. induction rqs as [|rq rqs IH]; intros w Hd Hin.
  - by apply elem_of_nil in Hin.
  - rewrite serve_cons. apply elem_of_cons in Hin as [<-|Hin].
    + apply serve_stable.
      * by rewrite handle_disk.
      * by rewrite (handle_warmup_found _ _ Hd).
    + apply IH; [|done]. by rewrite handle_disk.
Qed.

Lemma crashmap_status_fatal w F :
  fatal w = Some (frame F) →
  (full_dispatch_request (crashmap format_float) w).1
  = if forallb located F
    then {| status_code := 200;
            body := Some (render_template "crashmap.html"
                            (html_render (composed_map format_float F))
                            (header_render (composed_map format_float F))
                            (script_render (composed_map format_float F))
                            "QLD Crash Map Annotated") |}
    else {| status_code := 500; body := None |}.
Proof.
  intros H. rewrite (crashmap_response_fatal w (loaded F ∅ [])) by done.
  unfold full_dispatch_request. rewrite crashmap_loaded.
  by destruct (forallb located F).
Qed.

Lemma located_row_of (L : list CsvRow) row code :
  located (row_of L row code) = csv_located row.
Proof.
  unfold located, csv_located, row_of. cbn.
  destruct (csv_Crash_Latitude_GDA94 row), (csv_Crash_Longitude_GDA94 row);
    cbn; try done;
    repeat (match goal with |- context [if ?b then _ else _] => destruct b end);
    done.
Qed.

Lemma located_fatal_rows (lines : list CsvRow) :
  forallb located (select_fatal (frame_of lines)) = true
  ↔ Forall (λ row, csv_located row = true) (fatal_csv_rows lines).
Proof.
  rewrite select_fatal_frame_of, forallb_located, Forall_fmap.
  apply Forall_iff. intros row. cbn. by rewrite located_row_of.
Qed.

(** X11. When the map is served.  In a process that starts with the
    dataset unset and has on disk a [locations.csv] with every column, a
    map request that comes after some sequence of warm-up and map requests
    is answered with status 200 if and only if one of those earlier
    requests was a warm-up and every line of severity ["Fatal"] has both
    its coordinates. *)
Theorem crashmap_ok_iff_warmed_up d out lines rqs :
  d !! "locations.csv" = Some (csv_file lines) →
  status_code
    (handle infer_column format_float GET_crashmap
       (serve infer_column format_float rqs (unloaded d out))).1 = 200
  ↔ GET_warmup ∈ rqs
    ∧ Forall (λ row, csv_located row = true) (fatal_csv_rows lines).
Proof.
  intros Hd. cbn [handle]. rewrite <-located_fatal_rows.
  destruct (decide (GET_warmup ∈ rqs)) as [Hin|Hn].
  - rewrite (crashmap_status_fatal _ (select_fatal (frame_of lines)))
      by (by apply serve_warm).
    destruct (forallb located _); cbn; split; try done; by intros [_ ?].
  - rewrite (serve_cold _ _ Hn). cbn. split; [done|]. by intros [? _].
Qed.

End RequestProperties.

Section EndToEnd.

Variable infer_column : list string → list Value.
Variable format_float : Q → string.

Implicit Types w : World.
Implicit Types rqs : list request.

Lemma number_value_read_number (ints : bool) (c : NumCell) :
  number_value (read_number ints c) = cell_value c.
Proof. by destruct c, ints. Qed.

(** X12. What the map shows.  When a [locations.csv] with every column is
    on disk and every line of severity ["Fatal"] has both its coordinates,
    a map request that comes after a sequence of requests with a warm-up
    among them gets status 200, and the marker group of the map, its third
    child, holds one marker per fatal line of the file, in file order: at
    the line's coordinates, with the line's fatality count as Python
    prints it in the tooltip (its digits, when every count of the file is
    an integer), and in the popup the line's crash nature (the text of the
    field, unless it is a missing-value marker, which shows as ["nan"]).
    Lines that are not fatal leave no marker. *)
Theorem crashmap_shows_fatal_rows_of_file w lines rqs :
  disk w !! "locations.csv" = Some (csv_file lines) →
  GET_warmup ∈ rqs →
  Forall (λ row, csv_located row = true) (fatal_csv_rows lines) →
  ∃ page folium_map markers,
    (handle infer_column format_float GET_crashmap
       (serve infer_column format_float rqs w)).1
    = {| status_code := 200; body := Some page |}
    ∧ map_div page = html_render folium_map
    ∧ map_children folium_map !! 2%nat
      = Some (EFeatureGroup {| fg_name := "Fatal Crashes"; fg_show := true;
                               fg_children := markers |})
    ∧ length markers = length (fatal_csv_rows lines)
    ∧ ∀ i row, fatal_csv_rows lines !! i = Some row →
        ∃ c, markers !! i = Some c
          ∧ location c = [cell_value (csv_Crash_Latitude_GDA94 row);
                          cell_value (csv_Crash_Longitude_GDA94 row)]
          ∧ tooltip c
            = format_number format_float
                (read_number (all_int (csv_Count_Casualty_Fatality <$> lines))
                             (csv_Count_Casualty_Fatality row)) +:+ " Dead"
          ∧ (∀ n, all_int (csv_Count_Casualty_Fatality <$> lines) = true →
               csv_Count_Casualty_Fatality row = cell_int n →
               tooltip c = pretty n +:+ " Dead")
          ∧ popup c = py_str (read_text (csv_Crash_Nature row))
          ∧ (is_na (csv_Crash_Nature row) = false →
             popup c = csv_Crash_Nature row)
          ∧ (is_na (csv_Crash_Nature row) = true → popup c = "nan").
Proof.
  intros Hd Hin Hloc.
  pose proof (serve_warm infer_column format_float rqs w lines Hd Hin) as Hf.
  apply located_fatal_rows in Hloc.
  set (F := select_fatal (frame_of lines)) in *.
  exists (render_template "crashmap.html"
            (html_render (composed_map format_float F))
            (header_render (composed_map format_float F))
            (script_render (composed_map format_float F))
            "QLD Crash Map Annotated"),
    (composed_map format_float F), (marker_at format_float <$> F).
  split_and!; try done.
  - cbn [handle]. by rewrite (crashmap_status_fatal _ _ F Hf), Hloc.
  - unfold F. by rewrite select_fatal_frame_of, !length_fmap.
  - intros i row Hi. unfold F.
    rewrite select_fatal_frame_of, !list_lookup_fmap, Hi. cbn.
    eexists. split; [done|]. cbn.
    rewrite !number_value_read_number. split_and!; try done.
    + intros n Hints Hn. by rewrite Hints, Hn.
    + intros Hna. unfold read_text. by rewrite Hna.
    + intros Hna. unfold read_text. by rewrite Hna.
Qed.

End EndToEnd.

(** ** The claims at the sample data *)

(** A map request in a fresh process whose [locations.csv] is the sample
    file: the request raises, it does not return a page. *)
Lemma crashmap_before_load_fails :
  crashmap sample_format_float (unloaded sample_disk [])
  = (Raise TypeError, unloaded sample_disk [])
  ∧ status_code
      (full_dispatch_request (crashmap sample_format_float)
         (unloaded sample_disk [])).1 = 500
  ∧ ¬ (∃ page w',
         crashmap sample_format_float (unloaded sample_disk [])
         = (Return (rv_str page), w')).
Proof.
  split_and!; [reflexivity | reflexivity |].
  intros (page & w' & H). discriminate H.
Qed.

(** A filtered dataset with a record that lacks its latitude (the fatal
    rows of a file with an empty latitude field): [add_markers] raises
    [ValueError]; it makes no marker layer. *)
Lemma add_markers_unlocated :
  Forall (λ r, Crash_Severity r = VStr "Fatal") sample_unlocated
  ∧ add_markers sample_format_float sample_map
      (loaded sample_unlocated sample_disk_unlocated [])
    = (Raise ValueError, loaded sample_unlocated sample_disk_unlocated [])
  ∧ ¬ (∃ folium_map w',
         add_markers sample_format_float sample_map
           (loaded sample_unlocated sample_disk_unlocated [])
         = (Return folium_map, w')).
Proof.
  split_and!; [vm_compute; repeat constructor | reflexivity |].
  intros (m & w' & H). discriminate H.
Qed.



Lemma add_markers_one_marker_per_record_witness :
  Forall (λ r, located r = true) sample_fatal
  ∧ ∃ markers,
      add_markers sample_format_float sample_map (loaded sample_fatal sample_disk [])
      = (Return (add_to (EFeatureGroup {| fg_name := "Fatal Crashes";
                                          fg_show := true;
                                          fg_children := markers |})
                        sample_map),
         loaded sample_fatal sample_disk [])
      ∧ length markers = 3%nat.
Proof.
  assert (Forall (λ r, located r = true) sample_fatal) as H.
  { vm_compute. repeat constructor. }
  split; [exact H|].
  destruct (add_markers_one_marker_per_record sample_format_float sample_fatal
              sample_map sample_disk [] H) as (markers & Ha & Hl & _).
  exists markers. split; [exact Ha|exact Hl].
Defined.



Lemma post_code_read_as_text_witness :
  disk (unloaded sample_disk []) !! "locations.csv" = Some (csv_file sample_csv)
  ∧ sample_csv !! 2%nat = Some sample_leading_zero
  ∧ has_leading_zero (csv_Loc_Post_Code sample_leading_zero) = true
  ∧ ∃ crashes r,
      read_csv (λ _, []) "locations.csv" {[ "Loc_Post_Code" := str ]}
        (unloaded sample_disk [])
      = (Return crashes, unloaded sample_disk [])
      ∧ df_rows crashes !! 2%nat = Some r
      ∧ r = row_of sample_csv sample_leading_zero (VStr "0800")
      ∧ (∀ n, Loc_Post_Code r ≠ VInt n)
      ∧ (csv_Crash_Severity sample_leading_zero = "Fatal" →
         ∃ (F : DataFrame) w',
           load_crash_data (λ _, []) (unloaded sample_disk []) = (Return F, w')
           ∧ fatal w' = Some F
           ∧ r ∈ df_rows F).
Proof.
  split_and!; [reflexivity | reflexivity | reflexivity |].
  apply (post_code_read_as_text (λ _, []) (unloaded sample_disk [])
           sample_csv 2 sample_leading_zero); reflexivity.
Defined.

Lemma Crash_Type_influences_nothing_witness :
  same_but_Crash_Type sample_fatal sample_fatal_retyped
  ∧ (add_markers sample_format_float sample_map
       (loaded sample_fatal sample_disk [])).1
    = (add_markers sample_format_float sample_map
         (loaded sample_fatal_retyped sample_disk [])).1
  ∧ (add_clusters sample_format_float sample_map
       (loaded sample_fatal sample_disk [])).1
    = (add_clusters sample_format_float sample_map
         (loaded sample_fatal_retyped sample_disk [])).1
  ∧ (add_heat_map sample_map (loaded sample_fatal sample_disk [])).1
    = (add_heat_map sample_map (loaded sample_fatal_retyped sample_disk [])).1
  ∧ (full_dispatch_request (crashmap sample_format_float)
       (loaded sample_fatal sample_disk [])).1
    = (full_dispatch_request (crashmap sample_format_float)
         (loaded sample_fatal_retyped sample_disk [])).1.
Proof.
  assert (same_but_Crash_Type sample_fatal sample_fatal_retyped) as H.
  { vm_compute. repeat constructor. }
  split; [exact H|].
  exact (Crash_Type_influences_nothing sample_format_float sample_fatal
           sample_fatal_retyped sample_map sample_disk [] H).
Defined.

(** ** The further properties at the sample data *)

Lemma add_heat_map_one_point_per_record_witness :
  Forall (λ r, located r = true) sample_fatal
  ∧ ∃ heat_in,
      add_heat_map sample_map (loaded sample_fatal sample_disk [])
      = (Return (add_to (EHeatMap {| hm_data := heat_in; hm_name := "Heat Map";
                                     hm_show := false; hm_control := true;
                                     hm_min_opacity := 0.5%Q |})
                        sample_map),
         loaded sample_fatal sample_disk [])
      ∧ length heat_in = 3%nat.
Proof.
  assert (Forall (λ r, located r = true) sample_fatal) as H.
  { vm_compute. repeat constructor. }
  split; [exact H|].
  destruct (add_heat_map_one_point_per_record sample_fatal sample_map
              sample_disk [] H) as (heat_in & Ha & Hl & _).
  exists heat_in. split; [exact Ha|exact Hl].
Defined.

Lemma unlocated_record_stops_the_map_witness :
  Exists (λ r, located r = false) sample_unlocated
  ∧ add_markers sample_format_float sample_map
      (loaded sample_unlocated sample_disk_unlocated [])
    = (Raise ValueError, loaded sample_unlocated sample_disk_unlocated [])
  ∧ add_clusters sample_format_float sample_map
      (loaded sample_unlocated sample_disk_unlocated [])
    = (Raise ValueError, loaded sample_unlocated sample_disk_unlocated [])
  ∧ add_heat_map sample_map (loaded sample_unlocated sample_disk_unlocated [])
    = (Raise ValueError, loaded sample_unlocated sample_disk_unlocated [])
  ∧ full_dispatch_request (crashmap sample_format_float)
      (loaded sample_unlocated sample_disk_unlocated [])
    = ({| status_code := 500; body := None |},
       loaded sample_unlocated sample_disk_unlocated []).
Proof.
  assert (Exists (λ r, located r = false) sample_unlocated) as H.
  { vm_compute. apply Exists_cons_tl, Exists_cons_hd. reflexivity. }
  split; [exact H|].
  exact (unlocated_record_stops_the_map sample_format_float sample_unlocated
           sample_map sample_disk_unlocated [] H).
Defined.

Lemma failed_load_keeps_dataset_witness :
  disk (loaded sample_fatal ∅ []) !! "locations.csv" = None
  ∧ load_crash_data (λ _, []) (loaded sample_fatal ∅ [])
    = (Raise FileNotFoundError, loaded sample_fatal ∅ [])
  ∧ status_code
      (full_dispatch_request (crashmap sample_format_float)
         (full_dispatch_request (warmup (λ _, [])) (loaded sample_fatal ∅ [])).2).1
    = 200.
Proof.
  assert (disk (loaded sample_fatal ∅ []) !! "locations.csv" = None)
    as H by reflexivity.
  split; [exact H|].
  destruct (failed_load_keeps_dataset (λ _, []) sample_format_float
              (loaded sample_fatal ∅ []) H) as (Hl & _ & Hc).
  split; [exact Hl|]. rewrite Hc. reflexivity.
Defined.

Lemma raising_load_changes_nothing_witness :
  (load_crash_data (λ _, [])
     (loaded sample_fatal {[ "locations.csv" := csv_malformed ]} [])).1
  = Raise ParserError
  ∧ (load_crash_data (λ _, [])
       (loaded sample_fatal {[ "locations.csv" := csv_malformed ]} [])).2
    = loaded sample_fatal {[ "locations.csv" := csv_malformed ]} [].
Proof.
  assert ((load_crash_data (λ _, [])
             (loaded sample_fatal {[ "locations.csv" := csv_malformed ]} [])).1
          = Raise ParserError) as H by reflexivity.
  split; [exact H|].
  exact (raising_load_changes_nothing (λ _, []) _ _ H).
Defined.

Lemma load_replaces_dataset_witness :
  disk (unloaded sample_disk []) !! "locations.csv"
  = Some (csv_table modelled_columns sample_csv)
  ∧ "Crash_Severity" ∈ modelled_columns
  ∧ ∃ D : DataFrame,
      load_crash_data (λ _, []) (unloaded sample_disk [])
      = (Return D, {| fatal := Some D; disk := sample_disk; stdout := [] |})
      ∧ Crash_Nature <$> df_rows D
        = [VStr "Head-on"; VStr "Hit pedestrian"; VStr "Overturned"].
Proof.
  assert (disk (unloaded sample_disk []) !! "locations.csv"
          = Some (csv_table modelled_columns sample_csv)) as H by reflexivity.
  assert ("Crash_Severity" ∈ modelled_columns) as Hs.
  { unfold modelled_columns. set_solver. }
  split; [exact H|]. split; [exact Hs|].
  destruct (load_replaces_dataset (λ _, []) (unloaded sample_disk [])
              modelled_columns sample_csv H Hs) as (D & _ & HD & Hl & _).
  exists D. split; [exact Hl|]. rewrite HD. reflexivity.
Defined.

Lemma only_fatal_invariant_witness :
  only_fatal (unloaded sample_disk [])
  ∧ only_fatal
      (serve (λ _, []) sample_format_float
         [GET_crashmap; GET_warmup; GET_crashmap] (unloaded sample_disk [])).
Proof.
  assert (only_fatal (unloaded sample_disk [])) as H.
  { intros F HF. discriminate HF. }
  split; [exact H|].
  exact (only_fatal_invariant (λ _, []) sample_format_float
           [GET_crashmap; GET_warmup; GET_crashmap]
           (unloaded sample_disk []) H).
Defined.

Lemma crashmap_ok_iff_warmed_up_witness :
  sample_disk !! "locations.csv" = Some (csv_file sample_csv)
  ∧ (status_code
       (handle (λ _, []) sample_format_float GET_crashmap
          (serve (λ _, []) sample_format_float [GET_crashmap; GET_warmup]
             (unloaded sample_disk []))).1
     = 200
     ↔ GET_warmup ∈ [GET_crashmap; GET_warmup]
       ∧ Forall (λ row, csv_located row = true) (fatal_csv_rows sample_csv)).
Proof.
  assert (sample_disk !! "locations.csv" = Some (csv_file sample_csv))
    as H by reflexivity.
  split; [exact H|].
  exact (crashmap_ok_iff_warmed_up (λ _, []) sample_format_float sample_disk []
           sample_csv [GET_crashmap; GET_warmup] H).
Defined.

Lemma crashmap_shows_fatal_rows_of_file_witness :
  disk (unloaded sample_disk []) !! "locations.csv" = Some (csv_file sample_csv)
  ∧ GET_warmup ∈ [GET_crashmap; GET_warmup]
  ∧ Forall (λ row, csv_located row = true) (fatal_csv_rows sample_csv)
  ∧ ∃ page folium_map markers,
      (handle (λ _, []) sample_format_float GET_crashmap
         (serve (λ _, []) sample_format_float [GET_crashmap; GET_warmup]
            (unloaded sample_disk []))).1
      = {| status_code := 200; body := Some page |}
      ∧ map_div page = html_render folium_map
      ∧ map_children folium_map !! 2%nat
        = Some (EFeatureGroup {| fg_name := "Fatal Crashes"; fg_show := true;
                                 fg_children := markers |})
      ∧ length markers = 3%nat.
Proof.
  assert (disk (unloaded sample_disk []) !! "locations.csv"
          = Some (csv_file sample_csv)) as H by reflexivity.
  assert (GET_warmup ∈ [GET_crashmap; GET_warmup]) as Hin.
  { apply elem_of_cons. right. apply elem_of_cons. by left. }
  assert (Forall (λ row, csv_located row = true) (fatal_csv_rows sample_csv))
    as Hloc.
  { vm_compute. repeat constructor. }
  split; [exact H|]. split; [exact Hin|]. split; [exact Hloc|].
  destruct (crashmap_shows_fatal_rows_of_file (λ _, []) sample_format_float
              (unloaded sample_disk []) sample_csv [GET_crashmap; GET_warmup]
              H Hin Hloc)
    as (page & m & markers & H1 & H2 & H3 & H4 & _).
  exists page, m, markers. split_and!; try done.
Defined.
